(** * Highscores API

    A shallow embedding of the ownership-aware service under [app/]
    ([auth.py], [database.py], [models.py], [main.py]) over the schema of
    [alembic/versions/001_initial_schema.py], and the properties of its
    access guard, its ranked query and its per-tenant isolation.  The older
    single-file variant [main.py], without API keys, is not modelled.

    The SQLite store is a pair of tables kept as lists in rowid order.
    Every handler is a function from the store (and the request's inputs,
    including what the handler draws from the clock and from the random
    generators) to a result and the store after the request. *)

From Stdlib Require Import ZArith List String Ascii Bool Lia.
From Stdlib Require Import Sorting.Sorted Sorting.Permutation.
Import ListNotations.

Local Open Scope string_scope.
Local Open Scope Z_scope.

(** ** Python strings

    A [str] is modelled as a [string] whose characters are the code points
    up to U+00FF. *)

Module Py.

(** [str.isspace] on one character. *)
Definition isspace (c : ascii) : bool :=
  let n := N_of_ascii c in
  (((9 <=? n) && (n <=? 13)) || ((28 <=? n) && (n <=? 32))
   || (n =? 133) || (n =? 160))%N.

Fixpoint lstrip (s : string) : string :=
  match s with
  | EmptyString => EmptyString
  | String c s' => if isspace c then lstrip s' else s
  end.

Fixpoint rstrip (s : string) : string :=
  match s with
  | EmptyString => EmptyString
  | String c s' =>
      match rstrip s' with
      | EmptyString => if isspace c then EmptyString else String c EmptyString
      | r => String c r
      end
  end.

(** [s.strip()] *)
Definition strip (s : string) : string := rstrip (lstrip s).

Definition lower_char (c : ascii) : ascii :=
  let n := N_of_ascii c in
  if (((65 <=? n) && (n <=? 90))
      || ((192 <=? n) && (n <=? 222) && negb (n =? 215)))%N
  then ascii_of_N (n + 32) else c.

(** [s.lower()] *)
Fixpoint lower (s : string) : string :=
  match s with
  | EmptyString => EmptyString
  | String c s' => String (lower_char c) (lower s')
  end.

(** Truth value of a [str]: the empty string is false. *)
Definition truthy (s : string) : bool :=
  match s with EmptyString => false | String _ _ => true end.

(** [len(s)] *)
Definition len (s : string) : Z := Z.of_nat (String.length s).

End Py.

(** ** Tables ([001_initial_schema.py]) *)

Module games.
Record row := mk
  { id : Z;
    public_id : string;
    name : string;
    email : string;
    api_key : string;
    created_at : string }.
End games.

Module highscores.
Record row := mk
  { id : Z;
    game_id : Z;
    player_name : string;
    score : Z;
    created_at : string }.
End highscores.

Record DB := mkDB
  { games_table : list games.row;
    highscores_table : list highscores.row }.

Definition empty_db : DB := mkDB [] [].

(** ** Request and response models ([models.py]) *)

Module GameCreate.
Record t := mk { name : string; email : string }.
End GameCreate.

Module GameOut.
Record t := mk
  { public_id : string;
    name : string;
    email : string;
    api_key : string;
    created_at : string }.
End GameOut.

Module GameInfo.
Record t := mk { public_id : string; name : string; created_at : string }.
End GameInfo.

Module HighscoreIn.
Record t := mk { player_name : string; score : Z }.

(** [constr(min_length=1, max_length=32)], [conint(ge=0, le=1_000_000_000)] *)
Definition valid (hs : t) : bool :=
  (1 <=? Py.len (player_name hs)) && (Py.len (player_name hs) <=? 32)
  && (0 <=? score hs) && (score hs <=? 1000000000).
End HighscoreIn.

Module HighscoreOut.
Record t := mk { player_name : string; score : Z; created_at : string }.
End HighscoreOut.

Module HighscoreList.
Record t := mk { game_id : string; highscores : list HighscoreOut.t }.
End HighscoreList.

(** ** Results

    A handler returns its value or raises.  [HTTPException] is FastAPI's,
    with the status code and detail the source gives it;
    [RequestValidationError] is what FastAPI raises (status 422) when a
    declared parameter or body fails its constraints, before the handler's
    body runs; [IntegrityError] is sqlite3's on a violated UNIQUE
    constraint, and surfaces as status 500. *)

Inductive exn :=
| HTTPException (status_code : Z) (detail : string)
| RequestValidationError
| IntegrityError.

Inductive result (A : Type) :=
| Return (a : A)
| Raise (e : exn).

Arguments Return {A} a.
Arguments Raise {A} e.

Definition bind {A B : Type} (r : result A) (k : A -> result B) : result B :=
  match r with
  | Return a => k a
  | Raise e => Raise e
  end.

Notation "x <- r ;; k" := (bind r (fun x => k))
  (at level 61, r at next level, right associativity).

Definition NotFound : exn := HTTPException 404 "Game not found".
Definition Unauthorized : exn := HTTPException 401 "Invalid admin token".
Definition Forbidden : exn :=
  HTTPException 403
    "Unauthorized. Provide valid X-API-Key (game owner) or X-Admin-Token (admin)".

Definition status_code_of (e : exn) : Z :=
  match e with
  | HTTPException c _ => c
  | RequestValidationError => 422
  | IntegrityError => 500
  end.

(** ** SQL

    [ORDER BY] is a stable insertion sort of the rows in rowid order: SQLite
    leaves the order among rows equal on every key unspecified, and no
    statement below depends on it. *)

Section OrderBy.
Context {A : Type} (le : A -> A -> bool).

Fixpoint insert_row (x : A) (l : list A) : list A :=
  match l with
  | [] => [x]
  | y :: l' => if le x y then x :: l else y :: insert_row x l'
  end.

Fixpoint order_by (l : list A) : list A :=
  match l with
  | [] => []
  | x :: l' => insert_row x (order_by l')
  end.

End OrderBy.

(** [LIMIT n]; a negative [n] is no limit in SQLite. *)
Definition sql_limit {A : Type} (n : Z) (l : list A) : list A :=
  if n <? 0 then l else firstn (Z.to_nat n) l.

(** The rowid SQLite gives a new row of an INTEGER PRIMARY KEY table: one
    more than the largest in use. *)
Definition next_rowid (ids : list Z) : Z := 1 + fold_right Z.max 0 ids.

(** [ORDER BY score DESC, created_at ASC]: TEXT compares bytewise. *)
Definition score_desc_created_asc (a b : highscores.row) : bool :=
  (highscores.score b <? highscores.score a)
  || ((highscores.score a =? highscores.score b)
      && String.leb (highscores.created_at a) (highscores.created_at b)).

(** [ORDER BY created_at ASC] on the columns [public_id, name, created_at] *)
Definition created_asc (a b : GameInfo.t) : bool :=
  String.leb (GameInfo.created_at a) (GameInfo.created_at b).

Definition owned_by (gid : Z) (h : highscores.row) : bool :=
  highscores.game_id h =? gid.

(** [INSERT INTO games (public_id, name, email, api_key, created_at)]:
    [public_id] and [api_key] are UNIQUE. *)
Definition insert_game (db : DB) (public_id name email api_key now : string)
  : option DB :=
  if existsb (fun g => (games.public_id g =? public_id)%string
                       || (games.api_key g =? api_key)%string)
       (games_table db)
  then None
  else Some (mkDB
               (games_table db ++
                  [games.mk (next_rowid (map games.id (games_table db)))
                     public_id name email api_key now])
               (highscores_table db)).

(** [INSERT INTO highscores (game_id, player_name, score, created_at)] *)
Definition insert_highscore (db : DB) (gid : Z) (player_name : string)
    (score : Z) (now : string) : DB :=
  mkDB (games_table db)
    (highscores_table db ++
       [highscores.mk (next_rowid (map highscores.id (highscores_table db)))
          gid player_name score now]).

(** [DELETE FROM highscores WHERE game_id = ?], with [cur.rowcount] *)
Definition delete_from_highscores (db : DB) (gid : Z) : Z * DB :=
  (Z.of_nat (List.length (filter (owned_by gid) (highscores_table db))),
   mkDB (games_table db)
     (filter (fun h => negb (owned_by gid h)) (highscores_table db))).

(** [DELETE FROM games WHERE id = ?] *)
Definition delete_from_games (db : DB) (gid : Z) : DB :=
  mkDB (filter (fun g => negb (games.id g =? gid)) (games_table db))
    (highscores_table db).

(** [SELECT player_name, score, created_at FROM highscores WHERE game_id = ?
    ORDER BY score DESC, created_at ASC LIMIT ?] *)
Definition select_top (db : DB) (gid limit : Z) : list highscores.row :=
  sql_limit limit
    (order_by score_desc_created_asc
       (filter (owned_by gid) (highscores_table db))).

(** [SELECT public_id, name, created_at FROM games ORDER BY created_at ASC] *)
Definition select_games (db : DB) : list GameInfo.t :=
  order_by created_asc
    (map (fun g => GameInfo.mk (games.public_id g) (games.name g)
                     (games.created_at g))
       (games_table db)).

(** ** [database.py] *)

(** [SELECT * FROM games WHERE public_id = ?], [fetchone()] *)
Definition get_game_by_public_id (db : DB) (public_id : string)
  : option games.row :=
  find (fun g => (games.public_id g =? public_id)%string) (games_table db).

(** ** The application ([auth.py], [main.py])

    [ADMIN_TOKEN] is read from the environment once, when the process
    starts.  [EmailStr] is pydantic's validator of the [email] field: it
    gives the validated address, or nothing when the input is no address. *)

Section App.

Variable ADMIN_TOKEN : string.
Variable EmailStr : string -> option string.

(** [header == secret], for a header that may be absent ([None]) *)
Definition header_is (header : option string) (secret : string) : bool :=
  match header with
  | Some v => (v =? secret)%string
  | None => false
  end.

(** [x_api_key and x_api_key == api_key] *)
Definition api_key_matches (x_api_key : option string) (api_key : string)
  : bool :=
  match x_api_key with
  | Some k => Py.truthy k && (k =? api_key)%string
  | None => false
  end.

(** ["sk_" + secrets.token_urlsafe(32)], given what the generator drew *)
Definition generate_api_key (token_urlsafe : string) : string :=
  "sk_" ++ token_urlsafe.

Definition require_admin_token (x_admin_token : option string) : result unit :=
  if negb (header_is x_admin_token ADMIN_TOKEN)
  then Raise Unauthorized
  else Return tt.

Definition verify_game_ownership_or_admin (db : DB) (public_id : string)
    (x_api_key x_admin_token : option string) : result games.row :=
  match get_game_by_public_id db public_id with
  | None => Raise NotFound
  | Some game =>
      if header_is x_admin_token ADMIN_TOKEN then Return game
      else if api_key_matches x_api_key (games.api_key game) then Return game
      else Raise Forbidden
  end.

Definition healthcheck : string * string := ("ok", "2.0.0").

(** [GameCreate]: [name: constr(min_length=1, max_length=100)],
    [email: EmailStr] *)
Definition validate_GameCreate (game : GameCreate.t) : option GameCreate.t :=
  if (1 <=? Py.len (GameCreate.name game))
     && (Py.len (GameCreate.name game) <=? 100)
  then match EmailStr (GameCreate.email game) with
       | Some e => Some (GameCreate.mk (GameCreate.name game) e)
       | None => None
       end
  else None.

(** [uuid4_hex] is [uuid.uuid4().hex], [token_urlsafe] is
    [secrets.token_urlsafe(32)], [now] is [datetime.utcnow().isoformat()]. *)
Definition create_game (db : DB) (body : GameCreate.t)
    (uuid4_hex token_urlsafe now : string) : result GameOut.t * DB :=
  match validate_GameCreate body with
  | None => (Raise RequestValidationError, db)
  | Some game =>
      let public_id := "g_" ++ substring 0 16 uuid4_hex in
      let api_key := generate_api_key token_urlsafe in
      match insert_game db public_id (Py.strip (GameCreate.name game))
              (Py.lower (GameCreate.email game)) api_key now with
      | None => (Raise IntegrityError, db)
      | Some db' =>
          (Return (GameOut.mk public_id (Py.strip (GameCreate.name game))
                     (Py.lower (GameCreate.email game)) api_key now), db')
      end
  end.

Definition submit_highscore (db : DB) (public_id : string)
    (hs : HighscoreIn.t) (now : string) : result HighscoreOut.t * DB :=
  if negb (HighscoreIn.valid hs) then (Raise RequestValidationError, db)
  else
    match get_game_by_public_id db public_id with
    | None => (Raise NotFound, db)
    | Some game =>
        (Return (HighscoreOut.mk (Py.strip (HighscoreIn.player_name hs))
                   (HighscoreIn.score hs) now),
         insert_highscore db (games.id game)
           (Py.strip (HighscoreIn.player_name hs)) (HighscoreIn.score hs) now)
    end.

Definition to_HighscoreOut (row : highscores.row) : HighscoreOut.t :=
  HighscoreOut.mk (highscores.player_name row) (highscores.score row)
    (highscores.created_at row).

(** [limit: int = Query(10, ge=1, le=50)]: [None] is an omitted parameter. *)
Definition limit_param (limit : option Z) : result Z :=
  let n := match limit with Some n => n | None => 10 end in
  if (1 <=? n) && (n <=? 50) then Return n else Raise RequestValidationError.

Definition get_highscores (db : DB) (public_id : string) (limit : option Z)
  : result HighscoreList.t :=
  n <- limit_param limit ;;
  match get_game_by_public_id db public_id with
  | None => Raise NotFound
  | Some game =>
      Return (HighscoreList.mk public_id
                (map to_HighscoreOut (select_top db (games.id game) n)))
  end.

Definition list_games (db : DB) (x_admin_token : option string)
  : result (list GameInfo.t) :=
  _ <- require_admin_token x_admin_token ;;
  Return (select_games db).

Definition get_game (db : DB) (public_id : string)
    (x_admin_token : option string) : result GameInfo.t :=
  _ <- require_admin_token x_admin_token ;;
  match get_game_by_public_id db public_id with
  | None => Raise NotFound
  | Some game =>
      Return (GameInfo.mk (games.public_id game) (games.name game)
                (games.created_at game))
  end.

(** The value is [deleted], of the body [{"ok": True, "deleted": deleted}]. *)
Definition delete_highscores (db : DB) (public_id : string)
    (x_api_key x_admin_token : option string) : result Z * DB :=
  match verify_game_ownership_or_admin db public_id x_api_key x_admin_token with
  | Raise e => (Raise e, db)
  | Return game =>
      let (deleted, db') := delete_from_highscores db (games.id game) in
      (Return deleted, db')
  end.

(** The value stands for the body [{"ok": True}]. *)
Definition delete_game (db : DB) (public_id : string)
    (x_api_key x_admin_token : option string) : result unit * DB :=
  match verify_game_ownership_or_admin db public_id x_api_key x_admin_token with
  | Raise e => (Raise e, db)
  | Return game =>
      let db1 := snd (delete_from_highscores db (games.id game)) in
      (Return tt, delete_from_games db1 (games.id game))
  end.

(** ** Requests, responses and runs of the service *)

Inductive request :=
| GET_root
| POST_games (body : GameCreate.t) (uuid4_hex token_urlsafe now : string)
| POST_highscores (public_id : string) (hs : HighscoreIn.t) (now : string)
| GET_highscores (public_id : string) (limit : option Z)
| GET_games (x_admin_token : option string)
| GET_game (public_id : string) (x_admin_token : option string)
| DELETE_highscores (public_id : string) (x_api_key x_admin_token : option string)
| DELETE_game (public_id : string) (x_api_key x_admin_token : option string).

(** JSON bodies, as far as the responses need them. *)
#[local] Unset Elimination Schemes.
Inductive json :=
| JStr (s : string)
| JInt (n : Z)
| JBool (b : bool)
| JList (items : list json)
| JObj (members : list (string * json)).
#[local] Set Elimination Schemes.

(** The body of an error response.  The items FastAPI lists under the
    [detail] of a validation error describe the request that was refused,
    not the store; they are left out. *)
Definition json_of_exn (e : exn) : json :=
  match e with
  | HTTPException _ detail => JObj [("detail", JStr detail)]
  | RequestValidationError => JObj [("detail", JList [])]
  | IntegrityError => JStr "Internal Server Error"
  end.

Definition json_of_result {A : Type} (enc : A -> json) (r : result A) : json :=
  match r with
  | Return a => enc a
  | Raise e => json_of_exn e
  end.

Definition json_of_GameOut (g : GameOut.t) : json :=
  JObj [("public_id", JStr (GameOut.public_id g));
        ("name", JStr (GameOut.name g));
        ("email", JStr (GameOut.email g));
        ("api_key", JStr (GameOut.api_key g));
        ("created_at", JStr (GameOut.created_at g))].

Definition json_of_GameInfo (g : GameInfo.t) : json :=
  JObj [("public_id", JStr (GameInfo.public_id g));
        ("name", JStr (GameInfo.name g));
        ("created_at", JStr (GameInfo.created_at g))].

Definition json_of_HighscoreOut (h : HighscoreOut.t) : json :=
  JObj [("player_name", JStr (HighscoreOut.player_name h));
        ("score", JInt (HighscoreOut.score h));
        ("created_at", JStr (HighscoreOut.created_at h))].

Definition json_of_HighscoreList (l : HighscoreList.t) : json :=
  JObj [("game_id", JStr (HighscoreList.game_id l));
        ("highscores",
         JList (map json_of_HighscoreOut (HighscoreList.highscores l)))].

(** The response body of a request and the store after it. *)
Definition handle (db : DB) (req : request) : json * DB :=
  match req with
  | GET_root =>
      (JObj [("status", JStr (fst healthcheck));
             ("version", JStr (snd healthcheck))], db)
  | POST_games body uuid4_hex token_urlsafe now =>
      let (r, db') := create_game db body uuid4_hex token_urlsafe now in
      (json_of_result json_of_GameOut r, db')
  | POST_highscores public_id hs now =>
      let (r, db') := submit_highscore db public_id hs now in
      (json_of_result json_of_HighscoreOut r, db')
  | GET_highscores public_id limit =>
      (json_of_result json_of_HighscoreList (get_highscores db public_id limit),
       db)
  | GET_games x_admin_token =>
      (json_of_result (fun l => JList (map json_of_GameInfo l))
         (list_games db x_admin_token), db)
  | GET_game public_id x_admin_token =>
      (json_of_result json_of_GameInfo (get_game db public_id x_admin_token),
       db)
  | DELETE_highscores public_id x_api_key x_admin_token =>
      let (r, db') := delete_highscores db public_id x_api_key x_admin_token in
      (json_of_result
         (fun deleted => JObj [("ok", JBool true); ("deleted", JInt deleted)])
         r, db')
  | DELETE_game public_id x_api_key x_admin_token =>
      let (r, db') := delete_game db public_id x_api_key x_admin_token in
      (json_of_result (fun _ => JObj [("ok", JBool true)]) r, db')
  end.

(** The store after a sequence of requests. *)
Definition run (reqs : list request) (db : DB) : DB :=
  fold_left (fun d req => snd (handle d req)) reqs db.

(** The stores the service reaches from the empty schema of the initial
    migration by requests handled one after another.  Handlers that run at
    the same time can interleave between a lookup and the write that
    follows it; the constraints of the schema (primary keys, UNIQUE) and
    what each statement writes hold all the same, but that every score
    entry has its tenant does not, and nothing below takes it from
    [reachable]. *)
Definition reachable (db : DB) : Prop :=
  exists reqs : list request, db = run reqs empty_db.

(** Whether a JSON value has a member of the given name, at any depth. *)
Fixpoint has_member (k : string) (j : json) : bool :=
  match j with
  | JStr _ | JInt _ | JBool _ => false
  | JList items => existsb (has_member k) items
  | JObj members =>
      existsb (fun m => (fst m =? k)%string || has_member k (snd m)) members
  end.

(** The member names of a JSON object. *)
Definition member_names (j : json) : list string :=
  match j with
  | JObj members => map fst members
  | _ => []
  end.

(** ** Specification vocabulary *)

(** The score entries a tenant owns, in rowid order. *)
Definition entries_of (db : DB) (tenant : games.row) : list highscores.row :=
  filter (owned_by (games.id tenant)) (highscores_table db).

(** [a] may stand before [b] in a ranking: a higher score, or the same
    score and a [created_at] that is not later. *)
Definition ranks_before (a b : highscores.row) : Prop :=
  highscores.score b < highscores.score a
  \/ (highscores.score a = highscores.score b
      /\ String.leb (highscores.created_at a) (highscores.created_at b) = true).

(** The columns of a tenant that the admin routes show. *)
Definition public_columns (g : games.row) : GameInfo.t :=
  GameInfo.mk (games.public_id g) (games.name g) (games.created_at g).

(** Two stores whose tenants agree on everything but [id], [email] and
    [api_key]. *)
Definition same_public_columns (db1 db2 : DB) : Prop :=
  map public_columns (games_table db1) = map public_columns (games_table db2).

(** Two stores that differ at most in the [email] and [api_key] of their
    tenants. *)
Definition same_but_secrets (db1 db2 : DB) : Prop :=
  map (fun g => (games.id g, public_columns g)) (games_table db1)
  = map (fun g => (games.id g, public_columns g)) (games_table db2)
  /\ highscores_table db1 = highscores_table db2.

(** What every reachable store satisfies: the keys of the schema are unique,
    every [api_key] is one [generate_api_key] made, and every stored
    [player_name] is trimmed. *)
Record db_inv (db : DB) : Prop := mk_db_inv
  { inv_ids : NoDup (map games.id (games_table db));
    inv_public_ids : NoDup (map games.public_id (games_table db));
    inv_api_keys : NoDup (map games.api_key (games_table db));
    inv_generated :
      forall g, In g (games_table db) ->
                exists token, games.api_key g = generate_api_key token;
    inv_trimmed :
      forall h, In h (highscores_table db) ->
                Py.strip (highscores.player_name h) = highscores.player_name h }.

(** ** A run of the service

    The admin token is the default of [auth.py]; the stand-in for pydantic's
    validator takes what holds an [@].  Two games are registered, then three
    scores are submitted to the first and one to the second;
    [demo_registered] and [demo_db] are the stores after the registrations
    and after the submissions. *)

Definition demo_token : string := "change-me".

Definition demo_EmailStr (s : string) : option string :=
  match index 0 "@" s with
  | Some _ => Some s
  | None => None
  end.

Definition demo_registrations : list request :=
  [POST_games (GameCreate.mk " Asteroids " "Ann@Example.org")
     "0123456789abcdef0123456789abcdef" "tokenA" "2025-11-16T10:00:00";
   POST_games (GameCreate.mk "Breakout" "bob@example.org")
     "fedcba9876543210fedcba9876543210" "tokenB" "2025-11-16T10:05:00.250000"].

Definition demo_submissions : list request :=
  [POST_highscores "g_0123456789abcdef" (HighscoreIn.mk "A" 50)
     "2025-11-16T11:00:00";
   POST_highscores "g_0123456789abcdef" (HighscoreIn.mk "B" 90)
     "2025-11-16T11:00:01";
   POST_highscores "g_0123456789abcdef" (HighscoreIn.mk "C" 90)
     "2025-11-16T11:00:01.000250";
   POST_highscores "g_fedcba9876543210" (HighscoreIn.mk "D" 70)
     "2025-11-16T11:00:02"].

Definition demo_asteroids : games.row :=
  games.mk 1 "g_0123456789abcdef" "Asteroids" "ann@example.org" "sk_tokenA"
    "2025-11-16T10:00:00".

Definition demo_breakout : games.row :=
  games.mk 2 "g_fedcba9876543210" "Breakout" "bob@example.org" "sk_tokenB"
    "2025-11-16T10:05:00.250000".

Definition demo_registered : DB := mkDB [demo_asteroids; demo_breakout] [].

Definition demo_db : DB :=
  mkDB [demo_asteroids; demo_breakout]
    [highscores.mk 1 1 "A" 50 "2025-11-16T11:00:00";
     highscores.mk 2 1 "B" 90 "2025-11-16T11:00:01";
     highscores.mk 3 1 "C" 90 "2025-11-16T11:00:01.000250";
     highscores.mk 4 2 "D" 70 "2025-11-16T11:00:02"].

(** A third registration on [demo_db], and the stores after it, after
    the first game deletes its scores, and after it deletes itself. *)

Definition demo_pong_body : GameCreate.t :=
  GameCreate.mk "Pong  " "Cy@Example.org".

Definition demo_pong_out : GameOut.t :=
  GameOut.mk "g_0011223344556677" "Pong" "cy@example.org" "sk_tokenC"
    "2025-11-16T12:00:00".

Definition demo_pong : games.row :=
  games.mk 3 "g_0011223344556677" "Pong" "cy@example.org" "sk_tokenC"
    "2025-11-16T12:00:00".

Definition demo_with_pong : DB :=
  mkDB [demo_asteroids; demo_breakout; demo_pong] (highscores_table demo_db).

Definition demo_scores_deleted : DB :=
  mkDB [demo_asteroids; demo_breakout]
    [highscores.mk 4 2 "D" 70 "2025-11-16T11:00:02"].

Definition demo_game_deleted : DB :=
  mkDB [demo_breakout] [highscores.mk 4 2 "D" 70 "2025-11-16T11:00:02"].

(** A store with an orphan: the second game is gone, the entry submitted
    to it is still there, as after a [delete_game] committed between the
    lookup and the insert of that submission. *)
Definition demo_orphaned : DB :=
  mkDB [demo_asteroids] [highscores.mk 1 2 "D" 70 "2025-11-16T11:00:02"].

Definition demo_orphaned_with_pong : DB :=
  mkDB [demo_asteroids;
        games.mk 2 "g_0011223344556677" "Pong" "cy@example.org" "sk_tokenC"
          "2025-11-16T12:00:00"]
    [highscores.mk 1 2 "D" 70 "2025-11-16T11:00:02"].

(** ** Vocabulary of the further properties *)

(** A string made of whitespace only (the empty string included). *)
Fixpoint only_whitespace (s : string) : bool :=
  match s with
  | EmptyString => true
  | String c s' => Py.isspace c && only_whitespace s'
  end.

(** What the schema and the input contracts promise of a stored tenant:
    a trimmed [name] of at most 100 characters, a lower-case [email], a
    [public_id] that is [g_] and at most 16 more characters, and a positive
    [id]. *)
Definition game_row_ok (g : games.row) : Prop :=
  0 < games.id g
  /\ Py.len (games.name g) <= 100
  /\ Py.strip (games.name g) = games.name g
  /\ Py.lower (games.email g) = games.email g
  /\ (exists hex, games.public_id g = "g_" ++ hex /\ Py.len hex <= 16)
  /\ (exists token, games.api_key g = "sk_" ++ token).

(** What they promise of a stored score entry: a trimmed [player_name] of
    at most 32 characters, a [score] within 0..1000000000, and a positive
    [id]. *)
Definition highscore_row_ok (h : highscores.row) : Prop :=
  0 < highscores.id h
  /\ Py.len (highscores.player_name h) <= 32
  /\ Py.strip (highscores.player_name h) = highscores.player_name h
  /\ 0 <= highscores.score h <= 1000000000.

(** A store in which every score entry belongs to a stored tenant.  The
    schema declares the foreign key, but [get_db] does not switch its
    enforcement on, so SQLite keeps entries whose tenant is gone. *)
Definition no_orphans (db : DB) : Prop :=
  forall h, In h (highscores_table db) ->
            exists g, In g (games_table db)
                      /\ games.id g = highscores.game_id h.

(** The score entries that carry the rowid the next registration
    receives. *)
Definition entries_under_next_id (db : DB) : list highscores.row :=
  filter (owned_by (next_rowid (map games.id (games_table db))))
    (highscores_table db).

(** The integrity of a store beyond [db_inv]: the ids of the score entries
    are unique, and every row is within the contracts above. *)
Record store_inv (db : DB) : Prop := mk_store_inv
  { sinv_highscore_ids : NoDup (map highscores.id (highscores_table db));
    sinv_games : forall g, In g (games_table db) -> game_row_ok g;
    sinv_highscores :
      forall h, In h (highscores_table db) -> highscore_row_ok h }.

(** Scores that do not increase along a response. *)
Definition score_not_above (a b : HighscoreOut.t) : Prop :=
  HighscoreOut.score b <= HighscoreOut.score a.

(** [created_at] in ascending bytewise order. *)
Definition created_not_after (a b : GameInfo.t) : Prop :=
  String.leb (GameInfo.created_at a) (GameInfo.created_at b) = true.

(** ** Python strings: trimming *)

Lemma rstrip_cons_nonspace (c : ascii) (s : string) :
  Py.isspace c = false -> Py.rstrip (String c s) = String c (Py.rstrip s).
Proof.
  intros Hc. simpl. rewrite Hc. destruct (Py.rstrip s); reflexivity.
Qed.

Lemma rstrip_idem (s : string) : Py.rstrip (Py.rstrip s) = Py.rstrip s.
Proof.
  induction s as [|c s IH]; [reflexivity|].
  simpl. destruct (Py.rstrip s) as [|c' r] eqn:Hr.
  - destruct (Py.isspace c) eqn:Hc; [reflexivity|].
    simpl. rewrite Hc. reflexivity.
  - change (Py.rstrip (String c (String c' r))) with
      (match Py.rstrip (String c' r) with
       | EmptyString =>
           if Py.isspace c then EmptyString else String c EmptyString
       | r0 => String c r0
       end).
    rewrite IH. reflexivity.
Qed.

Lemma lstrip_head (s : string) :
  Py.lstrip s = EmptyString
  \/ exists c r, Py.lstrip s = String c r /\ Py.isspace c = false.
Proof.
  induction s as [|c s IH]; [left; reflexivity|].
  simpl. destruct (Py.isspace c) eqn:Hc; [exact IH|].
  right. exists c, s. split; [reflexivity | exact Hc].
Qed.

Lemma strip_idem (s : string) : Py.strip (Py.strip s) = Py.strip s.
Proof.
  unfold Py.strip.
  destruct (lstrip_head s) as [He | (c & r & He & Hc)]; rewrite He.
  - reflexivity.
  - rewrite (rstrip_cons_nonspace c r Hc). cbn [Py.lstrip]. rewrite Hc.
    rewrite (rstrip_cons_nonspace c _ Hc), rstrip_idem. reflexivity.
Qed.

(** ** Bytewise order of TEXT *)

Lemma ascii_compare_refl (c : ascii) : Ascii.compare c c = Eq.
Proof. unfold Ascii.compare. apply N.compare_refl. Qed.

Lemma string_compare_refl (s : string) : String.compare s s = Eq.
Proof.
  induction s as [|c s IH]; [reflexivity|].
  simpl. rewrite ascii_compare_refl. exact IH.
Qed.

Lemma string_compare_lt_trans (a b c : string) :
  String.compare a b = Lt -> String.compare b c = Lt ->
  String.compare a c = Lt.
Proof.
  revert b c. induction a as [|x a IH]; intros [|y b] [|z c]; simpl;
    try congruence.
  unfold Ascii.compare.
  destruct (N.compare_spec (N_of_ascii x) (N_of_ascii y)) as [Hxy|Hxy|Hxy];
    destruct (N.compare_spec (N_of_ascii y) (N_of_ascii z)) as [Hyz|Hyz|Hyz];
    try congruence; intros H1 H2.
  - rewrite Hxy, Hyz, N.compare_refl. eapply IH; eassumption.
  - rewrite Hxy. apply N.compare_lt_iff in Hyz. rewrite Hyz. reflexivity.
  - rewrite <- Hyz. apply N.compare_lt_iff in Hxy. rewrite Hxy. reflexivity.
  - assert (Hxz : (N_of_ascii x < N_of_ascii z)%N) by lia.
    apply N.compare_lt_iff in Hxz. rewrite Hxz. reflexivity.
Qed.

Lemma string_leb_refl (s : string) : String.leb s s = true.
Proof. unfold String.leb. rewrite string_compare_refl. reflexivity. Qed.

Lemma string_leb_trans (a b c : string) :
  String.leb a b = true -> String.leb b c = true -> String.leb a c = true.
Proof.
  unfold String.leb. intros Hab Hbc.
  destruct (String.compare a b) eqn:Eab; try discriminate;
    destruct (String.compare b c) eqn:Ebc; try discriminate.
  - apply String.compare_eq_iff in Eab, Ebc. subst.
    rewrite string_compare_refl. reflexivity.
  - apply String.compare_eq_iff in Eab. subst. rewrite Ebc. reflexivity.
  - apply String.compare_eq_iff in Ebc. subst. rewrite Eab. reflexivity.
  - rewrite (string_compare_lt_trans a b c Eab Ebc). reflexivity.
Qed.

Lemma string_ltb_leb (a b : string) :
  String.ltb a b = true -> String.leb a b = true /\ String.leb b a = false.
Proof.
  unfold String.ltb, String.leb. rewrite (String.compare_antisym b a).
  destruct (String.compare a b); simpl; try discriminate. auto.
Qed.

(** ** [ORDER BY]: a sorted permutation *)

Section OrderByFacts.
Context {A : Type} (le : A -> A -> bool).
Hypothesis le_total : forall a b, le a b = true \/ le b a = true.
Hypothesis le_trans :
  forall a b c, le a b = true -> le b c = true -> le a c = true.

Lemma insert_row_perm (x : A) (l : list A) :
  Permutation (insert_row le x l) (x :: l).
Proof.
  induction l as [|y l IH]; simpl; [reflexivity|].
  destruct (le x y); [reflexivity|].
  rewrite IH. apply perm_swap.
Qed.

Lemma order_by_perm (l : list A) : Permutation (order_by le l) l.
Proof.
  induction l as [|x l IH]; simpl; [constructor|].
  rewrite insert_row_perm. constructor. exact IH.
Qed.

Lemma order_by_length (l : list A) :
  List.length (order_by le l) = List.length l.
Proof. apply Permutation_length, order_by_perm. Qed.

Lemma insert_row_sorted (x : A) (l : list A) :
  StronglySorted (fun a b => le a b = true) l ->
  StronglySorted (fun a b => le a b = true) (insert_row le x l).
Proof.
  induction 1 as [|y l Hs IH Hy]; simpl.
  - constructor; constructor.
  - destruct (le x y) eqn:Hxy.
    + constructor; [constructor; assumption|].
      constructor; [exact Hxy|].
      rewrite Forall_forall in *. intros z Hz. eauto.
    + constructor; [exact IH|].
      rewrite Forall_forall in *. intros z Hz.
      apply (Permutation_in _ (insert_row_perm x l)) in Hz.
      destruct Hz as [<- | Hz]; [|auto].
      destruct (le_total x y) as [H | H]; congruence.
Qed.

Lemma order_by_sorted (l : list A) :
  StronglySorted (fun a b => le a b = true) (order_by le l).
Proof.
  induction l as [|x l IH]; simpl; [constructor|].
  apply insert_row_sorted, IH.
Qed.

End OrderByFacts.

Lemma score_order_iff (a b : highscores.row) :
  score_desc_created_asc a b = true <-> ranks_before a b.
Proof.
  unfold score_desc_created_asc, ranks_before.
  rewrite orb_true_iff, andb_true_iff, Z.ltb_lt, Z.eqb_eq. reflexivity.
Qed.

Lemma score_order_total (a b : highscores.row) :
  score_desc_created_asc a b = true \/ score_desc_created_asc b a = true.
Proof.
  rewrite !score_order_iff. unfold ranks_before.
  destruct (String.leb_total (highscores.created_at a)
              (highscores.created_at b)) as [H | H];
    destruct (Z.lt_trichotomy (highscores.score a) (highscores.score b))
      as [Hs | [Hs | Hs]]; auto.
Qed.

Lemma score_order_trans (a b c : highscores.row) :
  score_desc_created_asc a b = true -> score_desc_created_asc b c = true ->
  score_desc_created_asc a c = true.
Proof.
  rewrite !score_order_iff. unfold ranks_before.
  intros [H1 | [H1 L1]] [H2 | [H2 L2]]; try (left; lia).
  right. split; [lia|]. eapply string_leb_trans; eassumption.
Qed.

Lemma ranked_sorted (l : list highscores.row) :
  StronglySorted ranks_before (order_by score_desc_created_asc l).
Proof.
  pose proof (order_by_sorted _ score_order_total score_order_trans l) as H.
  induction H as [|x r Hs IH Hx]; constructor; [exact IH|].
  rewrite Forall_forall in *. intros y Hy. apply score_order_iff. auto.
Qed.

Lemma firstn_all_perm {A : Type} (n : nat) (l l' : list A) :
  Permutation l l' -> (List.length l' <= n)%nat -> Permutation (firstn n l) l'.
Proof.
  intros Hp Hn. rewrite firstn_all2; [exact Hp|].
  rewrite (Permutation_length Hp). exact Hn.
Qed.

(** ** Lookup by [public_id] *)

Lemma get_game_some (db : DB) (public_id : string) (g : games.row) :
  get_game_by_public_id db public_id = Some g ->
  In g (games_table db) /\ games.public_id g = public_id.
Proof.
  unfold get_game_by_public_id. intros H. apply find_some in H.
  destruct H as [Hin Heq]. apply String.eqb_eq in Heq. auto.
Qed.

Lemma get_game_none (db : DB) (public_id : string) :
  get_game_by_public_id db public_id = None ->
  forall g, In g (games_table db) -> games.public_id g <> public_id.
Proof.
  unfold get_game_by_public_id. intros H g Hin.
  apply (find_none _ _ H) in Hin. apply String.eqb_neq. exact Hin.
Qed.

Lemma find_unique_key (l : list games.row) (g : games.row) :
  NoDup (map games.public_id l) -> In g l ->
  find (fun x => (games.public_id x =? games.public_id g)%string) l = Some g.
Proof.
  induction l as [|x l IH]; simpl; [contradiction|].
  intros Hnd Hin. inversion Hnd as [|? ? Hx Hl]; subst.
  destruct (String.eqb_spec (games.public_id x) (games.public_id g)) as [E|E].
  - destruct Hin as [-> | Hin]; [reflexivity|].
    exfalso. apply Hx. rewrite E. apply in_map. exact Hin.
  - destruct Hin as [-> | Hin]; [congruence|]. apply IH; assumption.
Qed.

Lemma get_game_of_In (db : DB) (g : games.row) :
  NoDup (map games.public_id (games_table db)) -> In g (games_table db) ->
  get_game_by_public_id db (games.public_id g) = Some g.
Proof. apply find_unique_key. Qed.

(** ** The invariant of reachable stores *)

Lemma next_rowid_above (ids : list Z) (i : Z) :
  In i ids -> i < next_rowid ids.
Proof.
  unfold next_rowid.
  induction ids as [|j ids IH]; cbn [fold_right In]; [contradiction|].
  intros [-> | Hin]; [lia|]. specialize (IH Hin). lia.
Qed.

Lemma NoDup_snoc {A : Type} (l : list A) (x : A) :
  NoDup l -> ~ In x l -> NoDup (l ++ [x]).
Proof.
  intros Hl Hx. induction Hl as [|y l Hy Hl IH]; simpl.
  - constructor; [intros []|constructor].
  - constructor.
    + rewrite in_app_iff. simpl. intros [H | [H | []]]; [auto|].
      subst. apply Hx. left. reflexivity.
    + apply IH. intros H. apply Hx. right. exact H.
Qed.

Lemma NoDup_map_filter {Row Key : Type} (key : Row -> Key)
    (keep : Row -> bool) (rows : list Row)
    (Hkeys : NoDup (map key rows)) :
  NoDup (map key (filter keep rows)).
Proof.
  induction rows as [|r rows IH]; simpl; [constructor|].
  inversion Hkeys as [|? ? Hr Hrows]; subst.
  destruct (keep r); simpl; [|auto].
  constructor; [|auto].
  intros Hin. apply Hr. apply in_map_iff in Hin.
  destruct Hin as (y & Hy & Hin). apply filter_In in Hin.
  rewrite <- Hy. apply in_map. tauto.
Qed.

Lemma insert_game_inv (db db' : DB) (public_id name email token now : string) :
  db_inv db ->
  insert_game db public_id name email (generate_api_key token) now = Some db' ->
  db_inv db'.
Proof.
  intros [Hid Hpid Hkey Hgen Htrim]. unfold insert_game.
  destruct (existsb _ (games_table db)) eqn:Hex; [discriminate|].
  intros [= <-].
  assert (Hfresh : forall g, In g (games_table db) ->
            games.public_id g <> public_id
            /\ games.api_key g <> generate_api_key token).
  { intros g Hin. destruct (String.eqb_spec (games.public_id g) public_id) as [E|E];
      destruct (String.eqb_spec (games.api_key g) (generate_api_key token)) as [E'|E'];
      try (split; assumption); exfalso;
      assert (existsb (fun g0 => (games.public_id g0 =? public_id)%string
                 || (games.api_key g0 =? generate_api_key token)%string)
                (games_table db) = true)
        by (apply existsb_exists; exists g; split; [exact Hin|];
            rewrite ?E, ?E', ?String.eqb_refl, ?orb_true_r; reflexivity);
      congruence. }
  split; simpl; rewrite ?map_app; simpl.
  - apply NoDup_snoc; [exact Hid|]. intros Hin.
    apply next_rowid_above in Hin. lia.
  - apply NoDup_snoc; [exact Hpid|]. intros Hin. apply in_map_iff in Hin.
    destruct Hin as (g & Hg & Hin). apply (proj1 (Hfresh g Hin)). exact Hg.
  - apply NoDup_snoc; [exact Hkey|]. intros Hin. apply in_map_iff in Hin.
    destruct Hin as (g & Hg & Hin). apply (proj2 (Hfresh g Hin)). exact Hg.
  - intros g Hin. apply in_app_iff in Hin. destruct Hin as [Hin | [<- | []]].
    + apply Hgen. exact Hin.
    + exists token. reflexivity.
  - exact Htrim.
Qed.

Lemma insert_highscore_inv (db : DB) (gid : Z) (player_name : string)
    (score : Z) (now : string) :
  db_inv db -> db_inv (insert_highscore db gid (Py.strip player_name) score now).
Proof.
  intros [Hid Hpid Hkey Hgen Htrim]. split; simpl; try assumption.
  intros h Hin. apply in_app_iff in Hin. destruct Hin as [Hin | [<- | []]].
  - apply Htrim. exact Hin.
  - simpl. apply strip_idem.
Qed.

Lemma delete_from_highscores_inv (db : DB) (gid : Z) :
  db_inv db -> db_inv (snd (delete_from_highscores db gid)).
Proof.
  intros [Hid Hpid Hkey Hgen Htrim]. split; simpl; try assumption.
  intros h Hin. apply filter_In in Hin. apply Htrim. tauto.
Qed.

Lemma delete_from_games_inv (db : DB) (gid : Z) :
  db_inv db -> db_inv (delete_from_games db gid).
Proof.
  intros [Hid Hpid Hkey Hgen Htrim]. split; simpl;
    try (apply NoDup_map_filter; assumption); try assumption.
  intros g Hin. apply filter_In in Hin. apply Hgen. tauto.
Qed.

Lemma empty_db_inv : db_inv empty_db.
Proof. split; simpl; try constructor; intros ? []. Qed.

Lemma handle_inv (db : DB) (req : request) :
  db_inv db -> db_inv (snd (handle db req)).
Proof.
  intros Hinv. destruct req; simpl; try exact Hinv.
  - unfold create_game. destruct (validate_GameCreate body); [|exact Hinv].
    destruct (insert_game _ _ _ _ _ _) eqn:Hins; [|exact Hinv].
    simpl. eapply insert_game_inv; eassumption.
  - unfold submit_highscore. destruct (negb _); [exact Hinv|].
    destruct (get_game_by_public_id db public_id); [|exact Hinv].
    simpl. apply insert_highscore_inv. exact Hinv.
  - unfold delete_highscores.
    destruct (verify_game_ownership_or_admin _ _ _ _); [|exact Hinv].
    simpl. apply (delete_from_highscores_inv db). exact Hinv.
  - unfold delete_game.
    destruct (verify_game_ownership_or_admin _ _ _ _); [|exact Hinv].
    simpl. apply delete_from_games_inv.
    apply (delete_from_highscores_inv db). exact Hinv.
Qed.

Lemma run_inv (reqs : list request) (db : DB) :
  db_inv db -> db_inv (run reqs db).
Proof.
  revert db. induction reqs as [|req reqs IH]; intros db Hinv; simpl.
  - exact Hinv.
  - apply IH, handle_inv, Hinv.
Qed.

Lemma reachable_inv (db : DB) : reachable db -> db_inv db.
Proof. intros [reqs ->]. apply run_inv, empty_db_inv. Qed.

Lemma reachable_run (reqs : list request) (db : DB) :
  reachable db -> reachable (run reqs db).
Proof.
  intros [reqs0 ->]. exists (reqs0 ++ reqs)%list. unfold run.
  rewrite fold_left_app. reflexivity.
Qed.

(** ** The access guard *)

Lemma header_is_iff (header : option string) (secret : string) :
  header_is header secret = true <-> header = Some secret.
Proof.
  destruct header as [v|]; simpl.
  - rewrite String.eqb_eq. split; congruence.
  - split; discriminate.
Qed.

Lemma header_is_false (header : option string) (secret : string) :
  header <> Some secret -> header_is header secret = false.
Proof.
  intros H. destruct (header_is header secret) eqn:E; [|reflexivity].
  apply header_is_iff in E. contradiction.
Qed.

Lemma api_key_matches_iff (x_api_key : option string) (api_key : string) :
  api_key_matches x_api_key api_key = true
  <-> x_api_key = Some api_key /\ api_key <> EmptyString.
Proof.
  destruct x_api_key as [k|]; simpl.
  - rewrite andb_true_iff, String.eqb_eq. split.
    + intros [Ht <-]. split; [reflexivity|]. destruct k; discriminate.
    + intros [[= ->] Hne]. split; [|reflexivity].
      destruct api_key; [contradiction | reflexivity].
  - split; [discriminate | intros [H _]; discriminate].
Qed.

Lemma generated_api_key_nonempty (token : string) :
  generate_api_key token <> EmptyString.
Proof. discriminate. Qed.

Lemma NoDup_map_eq {A B : Type} (f : A -> B) (l : list A) (a b : A) :
  NoDup (map f l) -> In a l -> In b l -> f a = f b -> a = b.
Proof.
  induction l as [|x l IH]; simpl; [contradiction|].
  intros Hnd Ha Hb Hf. inversion Hnd as [|? ? Hx Hl]; subst.
  destruct Ha as [-> | Ha], Hb as [-> | Hb]; auto.
  - exfalso. apply Hx. rewrite Hf. apply in_map. exact Hb.
  - exfalso. apply Hx. rewrite <- Hf. apply in_map. exact Ha.
Qed.

(** C1. On the owner-or-admin routes the guard decides by cases: an
    unknown [public_id] is NotFound whatever the credentials; for a tenant
    that exists, the admin token authorizes; otherwise the tenant's own
    [api_key] authorizes; otherwise Forbidden.  [delete_highscores] and
    [delete_game] fail exactly as the guard does, leaving the store as it
    was, and go through when the guard returns.  A tenant's key authorizes
    that tenant and is Forbidden against every other tenant. *)
Theorem guard_case_analysis (db : DB) (public_id : string)
    (x_api_key x_admin_token : option string) :
  reachable db ->
  let guard :=
    verify_game_ownership_or_admin db public_id x_api_key x_admin_token in
  (get_game_by_public_id db public_id = None -> guard = Raise NotFound)
  /\ (forall tenant,
        get_game_by_public_id db public_id = Some tenant ->
        (x_admin_token = Some ADMIN_TOKEN -> guard = Return tenant)
        /\ (x_admin_token <> Some ADMIN_TOKEN ->
            x_api_key = Some (games.api_key tenant) -> guard = Return tenant)
        /\ (x_admin_token <> Some ADMIN_TOKEN ->
            x_api_key <> Some (games.api_key tenant) ->
            guard = Raise Forbidden))
  /\ (forall e,
        guard = Raise e ->
        delete_highscores db public_id x_api_key x_admin_token = (Raise e, db)
        /\ delete_game db public_id x_api_key x_admin_token = (Raise e, db))
  /\ (forall tenant,
        guard = Return tenant ->
        exists deleted db1 db2,
          delete_highscores db public_id x_api_key x_admin_token
          = (Return deleted, db1)
          /\ delete_game db public_id x_api_key x_admin_token
             = (Return tt, db2))
  /\ (forall T U,
        In T (games_table db) -> In U (games_table db) -> T <> U ->
        x_admin_token <> Some ADMIN_TOKEN ->
        verify_game_ownership_or_admin db (games.public_id T)
          (Some (games.api_key T)) x_admin_token = Return T
        /\ verify_game_ownership_or_admin db (games.public_id U)
             (Some (games.api_key T)) x_admin_token = Raise Forbidden).
Proof.
  intros Hreach guard. pose proof (reachable_inv db Hreach) as Hinv.
  assert (Hown : forall g tok key,
            In g (games_table db) -> tok <> Some ADMIN_TOKEN ->
            verify_game_ownership_or_admin db (games.public_id g) key tok
            = if api_key_matches key (games.api_key g)
              then Return g else Raise Forbidden).
  { intros g tok key Hg Htok. unfold verify_game_ownership_or_admin.
    rewrite (get_game_of_In db g (inv_public_ids db Hinv) Hg).
    rewrite (header_is_false _ _ Htok). reflexivity. }
  assert (Hkey : forall g, In g (games_table db) ->
            api_key_matches (Some (games.api_key g)) (games.api_key g) = true).
  { intros g Hg. apply api_key_matches_iff. split; [reflexivity|].
    destruct (inv_generated db Hinv g Hg) as [token ->].
    apply generated_api_key_nonempty. }
  split; [|split; [|split; [|split]]].
  - intros Hnone. subst guard. unfold verify_game_ownership_or_admin.
    rewrite Hnone. reflexivity.
  - intros tenant Hg. destruct (get_game_some _ _ _ Hg) as [Hin <-].
    subst guard. split; [|split].
    + intros Hadm. unfold verify_game_ownership_or_admin.
      rewrite Hg. apply header_is_iff in Hadm. rewrite Hadm. reflexivity.
    + intros Hadm Hk.
      rewrite (Hown tenant _ _ Hin Hadm), Hk, (Hkey tenant Hin). reflexivity.
    + intros Hadm Hk. rewrite (Hown tenant _ _ Hin Hadm).
      destruct (api_key_matches x_api_key (games.api_key tenant)) eqn:E;
        [|reflexivity].
      apply api_key_matches_iff in E. destruct E as [E _]. contradiction.
  - intros e He. unfold delete_highscores, delete_game. fold guard.
    rewrite He. split; reflexivity.
  - intros tenant Hret. unfold delete_highscores, delete_game. fold guard.
    rewrite Hret. simpl. eauto.
  - intros T U HT HU Hne Hadm. split.
    + rewrite (Hown T _ _ HT Hadm), (Hkey T HT). reflexivity.
    + rewrite (Hown U _ _ HU Hadm).
      destruct (api_key_matches (Some (games.api_key T)) (games.api_key U))
        eqn:E; [|reflexivity].
      apply api_key_matches_iff in E. destruct E as [[= E] _].
      exfalso. apply Hne.
      apply (NoDup_map_eq games.api_key (games_table db)); auto.
      apply (inv_api_keys db Hinv).
Qed.

(** C10. On the admin-only routes the token is checked first: without
    the right admin token [list_games] and [get_game] answer Unauthorized
    even for an unknown [public_id], where the owner-or-admin routes answer
    NotFound; with the right token an unknown [public_id] is NotFound. *)
Theorem admin_check_precedes_lookup (db : DB) (public_id : string)
    (x_api_key x_admin_token : option string) :
  x_admin_token <> Some ADMIN_TOKEN ->
  list_games db x_admin_token = Raise Unauthorized
  /\ get_game db public_id x_admin_token = Raise Unauthorized
  /\ (get_game_by_public_id db public_id = None ->
      get_game db public_id (Some ADMIN_TOKEN) = Raise NotFound
      /\ delete_highscores db public_id x_api_key x_admin_token
         = (Raise NotFound, db)
      /\ delete_game db public_id x_api_key x_admin_token
         = (Raise NotFound, db)).
Proof.
  intros Htok. unfold list_games, get_game, require_admin_token.
  rewrite (header_is_false _ _ Htok). simpl.
  repeat split; intros.
  - unfold header_is. rewrite String.eqb_refl. simpl. rewrite H. reflexivity.
  - unfold delete_highscores, verify_game_ownership_or_admin.
    rewrite H. reflexivity.
  - unfold delete_game, verify_game_ownership_or_admin.
    rewrite H. reflexivity.
Qed.

(** ** The ranked query *)

(** C3. [get_highscores] rejects every [limit] outside 1..50 with a
    validation error, whether or not the tenant exists, in particular 0 and
    51; it rejects no [limit] within the range; an omitted [limit] is 10. *)
Theorem limit_out_of_range_rejected (db : DB) (public_id : string) :
  (forall n, n < 1 \/ 50 < n ->
             get_highscores db public_id (Some n) = Raise RequestValidationError)
  /\ get_highscores db public_id (Some 0) = Raise RequestValidationError
  /\ get_highscores db public_id (Some 51) = Raise RequestValidationError
  /\ (forall n, 1 <= n <= 50 ->
                get_highscores db public_id (Some n)
                <> Raise RequestValidationError)
  /\ get_highscores db public_id None = get_highscores db public_id (Some 10).
Proof.
  assert (Hout : forall n, n < 1 \/ 50 < n ->
            get_highscores db public_id (Some n) = Raise RequestValidationError).
  { intros n Hn. unfold get_highscores, limit_param.
    replace ((1 <=? n) && (n <=? 50)) with false; [reflexivity|].
    symmetry. apply andb_false_iff. rewrite !Z.leb_gt. lia. }
  split; [exact Hout|].
  split; [apply Hout; lia|]. split; [apply Hout; lia|].
  split; [|reflexivity].
  intros n Hn. unfold get_highscores, limit_param.
  replace ((1 <=? n) && (n <=? 50)) with true
    by (symmetry; apply andb_true_iff; rewrite !Z.leb_le; lia).
  simpl. destruct (get_game_by_public_id db public_id); discriminate.
Qed.

Lemma limit_in_range (n : Z) : 1 <= n <= 50 -> limit_param (Some n) = Return n.
Proof.
  intros Hn. unfold limit_param.
  replace ((1 <=? n) && (n <=? 50)) with true; [reflexivity|].
  symmetry. apply andb_true_iff. rewrite !Z.leb_le. exact Hn.
Qed.

Lemma select_top_in_range (db : DB) (tenant : games.row) (n : Z) :
  1 <= n <= 50 ->
  select_top db (games.id tenant) n
  = firstn (Z.to_nat n)
      (order_by score_desc_created_asc (entries_of db tenant)).
Proof.
  intros Hn. unfold select_top, sql_limit, entries_of.
  replace (n <? 0) with false; [reflexivity|].
  symmetry. apply Z.ltb_ge. lia.
Qed.

Lemma get_highscores_known (db : DB) (public_id : string)
    (tenant : games.row) (n : Z) :
  get_game_by_public_id db public_id = Some tenant -> 1 <= n <= 50 ->
  get_highscores db public_id (Some n)
  = Return (HighscoreList.mk public_id
              (map to_HighscoreOut (select_top db (games.id tenant) n))).
Proof.
  intros Hg Hn. unfold get_highscores. rewrite (limit_in_range n Hn). simpl.
  rewrite Hg. reflexivity.
Qed.

Lemma submit_known (db : DB) (public_id : string) (tenant : games.row)
    (hs : HighscoreIn.t) (now : string) :
  get_game_by_public_id db public_id = Some tenant ->
  HighscoreIn.valid hs = true ->
  submit_highscore db public_id hs now
  = (Return (HighscoreOut.mk (Py.strip (HighscoreIn.player_name hs))
               (HighscoreIn.score hs) now),
     insert_highscore db (games.id tenant)
       (Py.strip (HighscoreIn.player_name hs)) (HighscoreIn.score hs) now).
Proof.
  intros Hg Hv. unfold submit_highscore. rewrite Hv, Hg. reflexivity.
Qed.

Lemma step_submit_known (db : DB) (public_id : string) (tenant : games.row)
    (hs : HighscoreIn.t) (now : string) :
  get_game_by_public_id db public_id = Some tenant ->
  HighscoreIn.valid hs = true ->
  snd (handle db (POST_highscores public_id hs now))
  = insert_highscore db (games.id tenant)
      (Py.strip (HighscoreIn.player_name hs)) (HighscoreIn.score hs) now.
Proof.
  intros Hg Hv. cbn [handle].
  rewrite (submit_known db public_id tenant hs now Hg Hv). reflexivity.
Qed.

Lemma entries_insert_highscore (db : DB) (tenant : games.row)
    (player_name : string) (score : Z) (now : string) :
  entries_of (insert_highscore db (games.id tenant) player_name score now)
    tenant
  = (entries_of db tenant ++
       [highscores.mk (next_rowid (map highscores.id (highscores_table db)))
          (games.id tenant) player_name score now])%list.
Proof.
  unfold entries_of, insert_highscore. simpl. rewrite filter_app. simpl.
  unfold owned_by at 2. simpl. rewrite Z.eqb_refl. reflexivity.
Qed.

(** C2. For a tenant that exists and a [limit] within 1..50,
    [get_highscores] returns the first [limit] rows of a ranking of the
    tenant's entries: a permutation of them in which every row stands
    before the rows of lower score and, at equal score, before the rows
    whose [created_at] is not earlier.  It returns [limit] rows or, when the
    tenant has fewer, all of them.  After A (50), B (90) and C (90) are
    submitted in that order to a tenant without entries, B's [created_at]
    before C's, the top 2 is B then C. *)
Theorem top_n_ranked (db : DB) (public_id : string) (tenant : games.row) :
  get_game_by_public_id db public_id = Some tenant ->
  (forall n, 1 <= n <= 50 ->
     exists ranked,
       Permutation ranked (entries_of db tenant)
       /\ StronglySorted ranks_before ranked
       /\ get_highscores db public_id (Some n)
          = Return (HighscoreList.mk public_id
                      (map to_HighscoreOut (firstn (Z.to_nat n) ranked)))
       /\ List.length (firstn (Z.to_nat n) ranked)
          = Nat.min (Z.to_nat n) (List.length (entries_of db tenant))
       /\ ((List.length (entries_of db tenant) <= Z.to_nat n)%nat ->
           Permutation (firstn (Z.to_nat n) ranked) (entries_of db tenant)))
  /\ (forall tA tB tC,
        entries_of db tenant = [] -> String.ltb tB tC = true ->
        get_highscores
          (run [POST_highscores public_id (HighscoreIn.mk "A" 50) tA;
                POST_highscores public_id (HighscoreIn.mk "B" 90) tB;
                POST_highscores public_id (HighscoreIn.mk "C" 90) tC] db)
          public_id (Some 2)
        = Return (HighscoreList.mk public_id
                    [HighscoreOut.mk "B" 90 tB; HighscoreOut.mk "C" 90 tC])).
Proof.
  intros Hg. split.
  - intros n Hn.
    exists (order_by score_desc_created_asc (entries_of db tenant)).
    split; [apply order_by_perm|]. split; [apply ranked_sorted|].
    split; [|split].
    + rewrite (get_highscores_known db public_id tenant n Hg Hn).
      rewrite (select_top_in_range db tenant n Hn). reflexivity.
    + rewrite length_firstn, order_by_length. reflexivity.
    + intros Hlen. apply firstn_all_perm; [apply order_by_perm | exact Hlen].
  - intros tA tB tC Hempty Hlt. unfold run. cbn [fold_left].
    rewrite (step_submit_known db public_id tenant
               (HighscoreIn.mk "A" 50) tA Hg eq_refl).
    set (db1 := insert_highscore db _ _ _ tA).
    rewrite (step_submit_known db1 public_id tenant
               (HighscoreIn.mk "B" 90) tB Hg eq_refl).
    set (db2 := insert_highscore db1 _ _ _ tB).
    rewrite (step_submit_known db2 public_id tenant
               (HighscoreIn.mk "C" 90) tC Hg eq_refl).
    set (db3 := insert_highscore db2 _ _ _ tC).
    assert (Hg3 : get_game_by_public_id db3 public_id = Some tenant)
      by exact Hg.
    rewrite (get_highscores_known db3 public_id tenant 2 Hg3)
      by (split; discriminate).
    rewrite (select_top_in_range db3 tenant 2) by (split; discriminate).
    subst db3 db2 db1. rewrite !entries_insert_highscore, Hempty.
    destruct (string_ltb_leb tB tC Hlt) as [Hle _].
    cbn. rewrite Hle. reflexivity.
Qed.

(** ** Deletion *)

Lemma verify_return (db : DB) (public_id : string)
    (x_api_key x_admin_token : option string) (game : games.row) :
  verify_game_ownership_or_admin db public_id x_api_key x_admin_token
  = Return game ->
  get_game_by_public_id db public_id = Some game.
Proof.
  unfold verify_game_ownership_or_admin.
  destruct (get_game_by_public_id db public_id) as [g|]; [|discriminate].
  destruct (header_is x_admin_token ADMIN_TOKEN); [congruence|].
  destruct (api_key_matches x_api_key (games.api_key g));
    [congruence | discriminate].
Qed.

Lemma verify_same_games (db1 db2 : DB) (public_id : string)
    (x_api_key x_admin_token : option string) :
  games_table db1 = games_table db2 ->
  verify_game_ownership_or_admin db1 public_id x_api_key x_admin_token
  = verify_game_ownership_or_admin db2 public_id x_api_key x_admin_token.
Proof.
  intros H. unfold verify_game_ownership_or_admin, get_game_by_public_id.
  rewrite H. reflexivity.
Qed.

Lemma filter_none_neg {A : Type} (p : A -> bool) (l : list A) :
  filter p l = [] -> filter (fun x => negb (p x)) l = l.
Proof.
  induction l as [|x l IH]; simpl; [reflexivity|].
  destruct (p x); simpl; [discriminate|]. intros H. rewrite IH; auto.
Qed.

Lemma filter_neg_none {A : Type} (p : A -> bool) (l : list A) :
  filter p (filter (fun x => negb (p x)) l) = [].
Proof.
  induction l as [|x l IH]; simpl; [reflexivity|].
  destruct (p x) eqn:E; simpl; [exact IH|]. rewrite E. exact IH.
Qed.

Lemma filter_filter_weaker {A : Type} (p q : A -> bool) (l : list A) :
  (forall x, p x = true -> q x = true) ->
  filter p (filter q l) = filter p l.
Proof.
  intros Hpq. induction l as [|x l IH]; simpl; [reflexivity|].
  destruct (q x) eqn:Eq; simpl.
  - rewrite IH. reflexivity.
  - destruct (p x) eqn:Ep; [|exact IH].
    rewrite (Hpq x Ep) in Eq. discriminate.
Qed.

Lemma entries_after_delete_other (db : DB) (T U : games.row) :
  games.id U <> games.id T ->
  entries_of (snd (delete_from_highscores db (games.id T))) U
  = entries_of db U.
Proof.
  intros Hne. unfold entries_of. simpl. apply filter_filter_weaker.
  intros h Hh. unfold owned_by in *. apply Z.eqb_eq in Hh.
  apply negb_true_iff, Z.eqb_neq. congruence.
Qed.

(** C6. A [delete_highscores] that goes through removes the entries of
    the tenant and no others, leaves the tenants as they were, and returns
    how many entries it removed; on a tenant without entries it returns 0
    and changes nothing; repeated at once, it returns 0. *)
Theorem delete_highscores_idempotent (db db' : DB) (public_id : string)
    (x_api_key x_admin_token : option string) (deleted : Z) :
  delete_highscores db public_id x_api_key x_admin_token
  = (Return deleted, db') ->
  exists tenant,
    get_game_by_public_id db public_id = Some tenant
    /\ games_table db' = games_table db
    /\ (forall h, In h (highscores_table db')
                  <-> In h (highscores_table db)
                      /\ highscores.game_id h <> games.id tenant)
    /\ highscores_table db'
       = filter (fun h => negb (owned_by (games.id tenant) h))
           (highscores_table db)
    /\ deleted = Z.of_nat (List.length (entries_of db tenant))
    /\ entries_of db' tenant = []
    /\ (entries_of db tenant = [] -> deleted = 0 /\ db' = db)
    /\ delete_highscores db' public_id x_api_key x_admin_token
       = (Return 0, db').
Proof.
  unfold delete_highscores.
  destruct (verify_game_ownership_or_admin db public_id x_api_key
              x_admin_token) as [tenant|e] eqn:Hv; [|discriminate].
  simpl. intros [= <- <-]. exists tenant.
  split; [exact (verify_return _ _ _ _ _ Hv)|].
  split; [reflexivity|]. split.
  { intros h. simpl. rewrite filter_In. unfold owned_by.
    rewrite negb_true_iff, Z.eqb_neq. reflexivity. }
  split; [reflexivity|]. split; [reflexivity|].
  split; [apply filter_neg_none|]. split.
  { unfold entries_of. intros He. rewrite He. split; [reflexivity|].
    rewrite (filter_none_neg _ _ He). destruct db; reflexivity. }
  rewrite (verify_same_games _ db) by reflexivity. rewrite Hv. simpl.
  rewrite filter_neg_none. simpl. f_equal. f_equal.
  apply filter_filter_weaker. auto.
Qed.

(** C7. Whether or not they go through, [delete_highscores] and
    [delete_game] on a tenant leave every score entry of another owner in
    place and add none, and leave every other tenant in place, with the
    same entries and found under the same [public_id];
    [delete_highscores] leaves all tenants as they were. *)
Theorem deletes_touch_one_tenant (db : DB) (public_id : string)
    (x_api_key x_admin_token : option string) (tenant : games.row) :
  reachable db ->
  get_game_by_public_id db public_id = Some tenant ->
  let db1 := snd (delete_highscores db public_id x_api_key x_admin_token) in
  let db2 := snd (delete_game db public_id x_api_key x_admin_token) in
  games_table db1 = games_table db
  /\ (forall h, highscores.game_id h <> games.id tenant ->
                (In h (highscores_table db1) <-> In h (highscores_table db))
                /\ (In h (highscores_table db2)
                    <-> In h (highscores_table db)))
  /\ (forall U, In U (games_table db) -> U <> tenant ->
                In U (games_table db1) /\ In U (games_table db2)
                /\ entries_of db1 U = entries_of db U
                /\ entries_of db2 U = entries_of db U
                /\ get_game_by_public_id db1 (games.public_id U) = Some U
                /\ get_game_by_public_id db2 (games.public_id U) = Some U).
Proof.
  intros Hreach Hg db1 db2. pose proof (reachable_inv db Hreach) as Hinv.
  destruct (get_game_some _ _ _ Hg) as [HT _].
  assert (Hinv2 : db_inv db2).
  { pose proof (handle_inv db
                  (DELETE_game public_id x_api_key x_admin_token) Hinv) as H.
    cbn [handle] in H. subst db2.
    destruct (delete_game db public_id x_api_key x_admin_token).
    exact H. }
  assert (Hother : forall U, In U (games_table db) -> U <> tenant ->
            games.id U <> games.id tenant).
  { intros U HU Hne Hid. apply Hne.
    apply (NoDup_map_eq games.id (games_table db)); auto.
    apply (inv_ids db Hinv). }
  subst db1 db2. unfold delete_highscores, delete_game in *.
  destruct (verify_game_ownership_or_admin db public_id x_api_key
              x_admin_token) as [g|e] eqn:Hv; simpl in *.
  - apply verify_return in Hv. rewrite Hg in Hv. injection Hv as <-.
    split; [reflexivity|]. split.
    + intros h Hh. rewrite filter_In. unfold owned_by.
      rewrite negb_true_iff, Z.eqb_neq. tauto.
    + intros U HU Hne. pose proof (Hother U HU Hne) as Hid.
      assert (HU2 : In U (filter (fun g => negb (games.id g =? games.id tenant))
                            (games_table db))).
      { apply filter_In. split; [exact HU|].
        apply negb_true_iff, Z.eqb_neq. exact Hid. }
      split; [exact HU|]. split; [exact HU2|].
      split; [apply (entries_after_delete_other db tenant U Hid)|].
      split; [apply (entries_after_delete_other db tenant U Hid)|].
      split.
      * apply (get_game_of_In db U (inv_public_ids db Hinv) HU).
      * apply (find_unique_key _ U (inv_public_ids _ Hinv2) HU2).
  - split; [reflexivity|]. split; [tauto|].
    intros U HU Hne. repeat split; auto;
      apply (get_game_of_In db U (inv_public_ids db Hinv) HU).
Qed.

(** C5. After a [delete_game] that goes through, the tenant and its
    score entries are gone: the lookup of its [public_id] finds nothing,
    [get_game] answers NotFound to the admin, and [get_highscores] answers
    NotFound, for every [limit] within 1..50 and for an omitted one. *)
Theorem delete_game_cascade (db db' : DB) (public_id : string)
    (x_api_key x_admin_token : option string) :
  reachable db ->
  delete_game db public_id x_api_key x_admin_token = (Return tt, db') ->
  exists tenant,
    get_game_by_public_id db public_id = Some tenant
    /\ ~ In tenant (games_table db')
    /\ entries_of db' tenant = []
    /\ (forall h, In h (highscores_table db') ->
                  highscores.game_id h <> games.id tenant)
    /\ get_game_by_public_id db' public_id = None
    /\ get_game db' public_id (Some ADMIN_TOKEN) = Raise NotFound
    /\ (forall n, 1 <= n <= 50 ->
                  get_highscores db' public_id (Some n) = Raise NotFound)
    /\ get_highscores db' public_id None = Raise NotFound.
Proof.
  intros Hreach. pose proof (reachable_inv db Hreach) as Hinv.
  unfold delete_game.
  destruct (verify_game_ownership_or_admin db public_id x_api_key
              x_admin_token) as [tenant|e] eqn:Hv; [|discriminate].
  apply verify_return in Hv. destruct (get_game_some _ _ _ Hv) as [HT Hpid].
  intros Hd.
  assert (Hdb : db' = delete_from_games
                        (snd (delete_from_highscores db (games.id tenant)))
                        (games.id tenant)) by congruence.
  clear Hd. exists tenant. split; [exact Hv|].
  assert (Hnone : get_game_by_public_id db' public_id = None).
  { rewrite Hdb. unfold get_game_by_public_id. simpl.
    destruct (find _ _) as [g|] eqn:Hf; [|reflexivity].
    apply find_some in Hf. destruct Hf as [Hin Heq].
    apply filter_In in Hin. destruct Hin as [Hin Hid].
    apply String.eqb_eq in Heq. apply negb_true_iff, Z.eqb_neq in Hid.
    exfalso. apply Hid. f_equal.
    apply (NoDup_map_eq games.public_id (games_table db)); auto.
    - apply (inv_public_ids db Hinv).
    - congruence. }
  split.
  { rewrite Hdb. simpl. rewrite filter_In. intros [_ Hid].
    rewrite Z.eqb_refl in Hid. discriminate. }
  split; [rewrite Hdb; apply filter_neg_none|]. split.
  { rewrite Hdb. simpl. intros h Hh. apply filter_In in Hh.
    destruct Hh as [_ Hh].
    unfold owned_by in Hh. apply negb_true_iff, Z.eqb_neq in Hh. exact Hh. }
  split; [exact Hnone|]. split.
  { unfold get_game, require_admin_token, header_is.
    rewrite String.eqb_refl. cbn [negb bind]. rewrite Hnone. reflexivity. }
  split.
  { intros n Hn. unfold get_highscores. rewrite (limit_in_range n Hn).
    cbn [bind]. rewrite Hnone. reflexivity. }
  unfold get_highscores. change (limit_param None) with (Return 10).
  cbn [bind]. rewrite Hnone. reflexivity.
Qed.

(** ** Submission *)

(** C8, as amended.  A submission to a [public_id] that resolves to no
    tenant creates no score entry; it is answered NotFound when the payload
    is valid, and with a validation error when it is not. *)
Theorem submit_unknown_tenant (db : DB) (public_id : string)
    (hs : HighscoreIn.t) (now : string) :
  get_game_by_public_id db public_id = None ->
  snd (submit_highscore db public_id hs now) = db
  /\ (HighscoreIn.valid hs = true ->
      fst (submit_highscore db public_id hs now) = Raise NotFound)
  /\ (HighscoreIn.valid hs = false ->
      fst (submit_highscore db public_id hs now)
      = Raise RequestValidationError).
Proof.
  intros Hg. unfold submit_highscore. rewrite Hg.
  destruct (HighscoreIn.valid hs); simpl; repeat split; congruence.
Qed.

Lemma In_firstn {A : Type} (n : nat) (l : list A) (x : A) :
  In x (firstn n l) -> In x l.
Proof.
  intros H. rewrite <- (firstn_skipn n l). apply in_or_app. left. exact H.
Qed.

Lemma select_top_stored (db : DB) (gid n : Z) (r : highscores.row) :
  In r (select_top db gid n) -> In r (highscores_table db).
Proof.
  unfold select_top, sql_limit. intros H.
  assert (Hs : In r (order_by score_desc_created_asc
                       (filter (owned_by gid) (highscores_table db)))).
  { destruct (n <? 0); [exact H | exact (In_firstn _ _ _ H)]. }
  apply (Permutation_in _ (order_by_perm _ _)) in Hs.
  apply filter_In in Hs. tauto.
Qed.

Lemma get_highscores_return (db : DB) (public_id : string)
    (limit : option Z) (l : HighscoreList.t) :
  get_highscores db public_id limit = Return l ->
  exists game n,
    get_game_by_public_id db public_id = Some game
    /\ limit_param limit = Return n
    /\ l = HighscoreList.mk public_id
             (map to_HighscoreOut (select_top db (games.id game) n)).
Proof.
  unfold get_highscores. destruct (limit_param limit) as [n|e]; [|discriminate].
  cbn [bind]. destruct (get_game_by_public_id db public_id) as [game|];
    [|discriminate].
  intros [= <-]. exists game, n. auto.
Qed.

(** C9. A valid submission to a tenant that exists stores a row with the
    trimmed [player_name], the score and the stamped [created_at], and
    returns the same three values; nothing is left to trim in that name.
    For every [limit] within 1..50 [get_highscores], asked at once,
    returns a ranking, and that ranking holds the entry with the trimmed
    name when the [limit] covers the tenant's entries, and whenever its
    rows include the stored row.  In every later store [get_highscores]
    returns a ranking for every tenant that exists and every [limit]
    within 1..50; it holds the entry with the trimmed name whenever its
    rows include the stored row, and it holds no name that is not
    trimmed. *)
Theorem trimmed_name_round_trip (db : DB) (public_id : string)
    (tenant : games.row) (hs : HighscoreIn.t) (now : string) :
  reachable db ->
  get_game_by_public_id db public_id = Some tenant ->
  HighscoreIn.valid hs = true ->
  let out :=
    HighscoreOut.mk (Py.strip (HighscoreIn.player_name hs))
      (HighscoreIn.score hs) now in
  let row :=
    highscores.mk (next_rowid (map highscores.id (highscores_table db)))
      (games.id tenant) (Py.strip (HighscoreIn.player_name hs))
      (HighscoreIn.score hs) now in
  let db' := snd (submit_highscore db public_id hs now) in
  fst (submit_highscore db public_id hs now) = Return out
  /\ highscores_table db' = (highscores_table db ++ [row])%list
  /\ games_table db' = games_table db
  /\ to_HighscoreOut row = out
  /\ Py.strip (HighscoreOut.player_name out) = HighscoreOut.player_name out
  /\ (forall n,
        1 <= n <= 50 ->
        exists l,
          get_highscores db' public_id (Some n) = Return l
          /\ ((List.length (entries_of db' tenant) <= Z.to_nat n)%nat ->
              In out (HighscoreList.highscores l))
          /\ (In row (select_top db' (games.id tenant) n) ->
              In out (HighscoreList.highscores l)))
  /\ (forall reqs public_id' game n,
        get_game_by_public_id (run reqs db') public_id' = Some game ->
        1 <= n <= 50 ->
        exists l,
          get_highscores (run reqs db') public_id' (Some n) = Return l
          /\ (In row (select_top (run reqs db') (games.id game) n) ->
              In out (HighscoreList.highscores l))
          /\ (forall o, In o (HighscoreList.highscores l) ->
                        Py.strip (HighscoreOut.player_name o)
                        = HighscoreOut.player_name o)).
Proof.
  intros Hreach Hg Hv out row db'. subst db'.
  rewrite (submit_known db public_id tenant hs now Hg Hv). cbn [fst snd].
  set (db1 := insert_highscore db (games.id tenant)
                (Py.strip (HighscoreIn.player_name hs))
                (HighscoreIn.score hs) now).
  assert (Hg1 : get_game_by_public_id db1 public_id = Some tenant)
    by exact Hg.
  split; [reflexivity|]. split; [reflexivity|]. split; [reflexivity|].
  split; [reflexivity|]. split; [apply strip_idem|]. split.
  - intros n Hn.
    exists (HighscoreList.mk public_id
              (map to_HighscoreOut (select_top db1 (games.id tenant) n))).
    split; [exact (get_highscores_known db1 public_id tenant n Hg1 Hn)|].
    cbn [HighscoreList.highscores]. split.
    + intros Hlen. change out with (to_HighscoreOut row). apply in_map.
      rewrite (select_top_in_range db1 tenant n Hn).
      apply (Permutation_in row
               (Permutation_sym
                  (firstn_all_perm _ _ _ (order_by_perm _ _) Hlen))).
      unfold db1. rewrite entries_insert_highscore. apply in_or_app.
      right. left. reflexivity.
    + intros Hin. change out with (to_HighscoreOut row). apply in_map.
      exact Hin.
  - intros reqs public_id' game n Hg' Hn.
    exists (HighscoreList.mk public_id'
              (map to_HighscoreOut
                 (select_top (run reqs db1) (games.id game) n))).
    split; [exact (get_highscores_known _ public_id' game n Hg' Hn)|].
    cbn [HighscoreList.highscores]. split.
    + intros Hin. change out with (to_HighscoreOut row). apply in_map.
      exact Hin.
    + intros o Ho. apply in_map_iff in Ho. destruct Ho as (r & <- & Hr).
      apply select_top_stored in Hr.
      cbn [to_HighscoreOut HighscoreOut.player_name].
      refine (inv_trimmed _ _ r Hr). apply run_inv.
      apply insert_highscore_inv. apply reachable_inv. exact Hreach.
Qed.

(** ** What the responses show *)

Lemma no_api_key_in_GameInfo_list (l : list GameInfo.t) :
  has_member "api_key" (JList (map json_of_GameInfo l)) = false.
Proof.
  cbn [has_member]. induction l as [|g l IH]; [reflexivity|].
  cbn [map existsb]. rewrite IH. reflexivity.
Qed.

Lemma no_api_key_in_HighscoreList (l : HighscoreList.t) :
  has_member "api_key" (json_of_HighscoreList l) = false.
Proof.
  destruct l as [gid hs]. unfold json_of_HighscoreList.
  cbn [HighscoreList.game_id HighscoreList.highscores].
  assert (H : has_member "api_key" (JList (map json_of_HighscoreOut hs))
              = false).
  { cbn [has_member]. induction hs as [|h hs IH]; [reflexivity|].
    cbn [map existsb]. rewrite IH. reflexivity. }
  cbn [has_member existsb fst snd] in *. rewrite H. reflexivity.
Qed.

Lemma no_api_key_in_exn (e : exn) :
  has_member "api_key" (json_of_exn e) = false.
Proof. destruct e; reflexivity. Qed.

Lemma find_same_columns {C : Type} (columns : games.row -> C)
    (public_id_of : C -> string)
    (Hcol : forall g, public_id_of (columns g) = games.public_id g)
    (l1 l2 : list games.row) (public_id : string) :
  map columns l1 = map columns l2 ->
  option_map columns
    (find (fun g => (games.public_id g =? public_id)%string) l1)
  = option_map columns
      (find (fun g => (games.public_id g =? public_id)%string) l2).
Proof.
  revert l2. induction l1 as [|a l1 IH]; intros [|b l2]; cbn [map find];
    try discriminate; [reflexivity|].
  intros H. injection H as Hab Hl.
  rewrite <- (Hcol a), Hab, (Hcol b).
  destruct (games.public_id b =? public_id)%string.
  - cbn [option_map]. rewrite Hab. reflexivity.
  - apply IH. exact Hl.
Qed.

(** C4. No response but the one to the creation of a game has a member
    named [api_key].  What [list_games] returns is the columns [public_id],
    [name] and [created_at] of the tenants, and its items have these three
    members; [list_games] and [get_game] answer the same on two stores
    whose tenants differ only in [id], [email] and [api_key], and
    [get_highscores] and [submit_highscore] on two stores that differ only
    in [email] and [api_key].  The response to a creation shows the
    [api_key] stored with the new tenant. *)
Theorem api_key_only_in_create_response (db : DB) :
  (forall req,
     (forall body uuid4_hex token_urlsafe now,
        req <> POST_games body uuid4_hex token_urlsafe now) ->
     has_member "api_key" (fst (handle db req)) = false)
  /\ (forall x_admin_token l,
        list_games db x_admin_token = Return l ->
        l = select_games db
        /\ forall info, In info l ->
                        member_names (json_of_GameInfo info)
                        = ["public_id"; "name"; "created_at"])
  /\ (forall public_id x_admin_token info,
        get_game db public_id x_admin_token = Return info ->
        member_names (json_of_GameInfo info)
        = ["public_id"; "name"; "created_at"])
  /\ (forall db2 public_id x_admin_token,
        same_public_columns db db2 ->
        list_games db x_admin_token = list_games db2 x_admin_token
        /\ get_game db public_id x_admin_token
           = get_game db2 public_id x_admin_token)
  /\ (forall db2 public_id limit hs now,
        same_but_secrets db db2 ->
        get_highscores db public_id limit = get_highscores db2 public_id limit
        /\ fst (submit_highscore db public_id hs now)
           = fst (submit_highscore db2 public_id hs now))
  /\ (forall body uuid4_hex token_urlsafe now out db',
        create_game db body uuid4_hex token_urlsafe now = (Return out, db') ->
        has_member "api_key" (json_of_GameOut out) = true
        /\ GameOut.api_key out = generate_api_key token_urlsafe
        /\ exists row,
             In row (games_table db')
             /\ games.public_id row = GameOut.public_id out
             /\ games.api_key row = GameOut.api_key out).
Proof.
  split; [|split; [|split; [|split; [|split]]]].
  - intros req Hreq. destruct req; cbn [handle fst].
    + reflexivity.
    + exfalso. eapply Hreq. reflexivity.
    + destruct (submit_highscore db public_id hs now) as [[o|e] db'] eqn:E;
        cbn [fst json_of_result]; [reflexivity | apply no_api_key_in_exn].
    + destruct (get_highscores db public_id limit) as [l|e];
        cbn [json_of_result];
        [apply no_api_key_in_HighscoreList | apply no_api_key_in_exn].
    + destruct (list_games db x_admin_token) as [l|e]; cbn [json_of_result];
        [apply no_api_key_in_GameInfo_list | apply no_api_key_in_exn].
    + destruct (get_game db public_id x_admin_token) as [g|e];
        cbn [json_of_result]; [reflexivity | apply no_api_key_in_exn].
    + destruct (delete_highscores db public_id x_api_key x_admin_token)
        as [[n|e] db']; cbn [fst json_of_result];
        [reflexivity | apply no_api_key_in_exn].
    + destruct (delete_game db public_id x_api_key x_admin_token)
        as [[u|e] db']; cbn [fst json_of_result];
        [reflexivity | apply no_api_key_in_exn].
  - intros tok l. unfold list_games.
    destruct (require_admin_token tok); cbn [bind]; [|discriminate].
    intros [= <-]. split; reflexivity.
  - intros. reflexivity.
  - intros db2 public_id tok Hsame. unfold list_games, get_game.
    assert (Hsel : select_games db = select_games db2)
      by exact (f_equal (order_by created_asc) Hsame).
    rewrite Hsel. split; [reflexivity|].
    destruct (require_admin_token tok); cbn [bind]; [|reflexivity].
    pose proof (find_same_columns public_columns GameInfo.public_id
                  (fun g => eq_refl) _ _ public_id Hsame) as Hf.
    unfold get_game_by_public_id.
    destruct (find _ (games_table db)), (find _ (games_table db2));
      cbn [option_map] in Hf; try discriminate; [|reflexivity].
    unfold public_columns in Hf. congruence.
  - intros db2 public_id limit hs now [Hgames Hscores].
    pose proof (find_same_columns
                  (fun g => (games.id g, public_columns g))
                  (fun c => GameInfo.public_id (snd c))
                  (fun g => eq_refl) _ _ public_id Hgames) as Hf.
    unfold get_highscores, submit_highscore, get_game_by_public_id,
      select_top.
    rewrite Hscores.
    destruct (find _ (games_table db)) as [g1|],
             (find _ (games_table db2)) as [g2|];
      cbn [option_map] in Hf; try discriminate.
    + injection Hf as Hid _. rewrite Hid. split; [reflexivity|].
      destruct (negb (HighscoreIn.valid hs)); reflexivity.
    + split; [reflexivity|].
      destruct (negb (HighscoreIn.valid hs)); reflexivity.
  - intros body uuid4_hex token_urlsafe now out db'. unfold create_game.
    destruct (validate_GameCreate body) as [game|]; [|discriminate].
    unfold insert_game. destruct (existsb _ _); [discriminate|].
    intros [= <- <-]. split; [reflexivity|]. split; [reflexivity|].
    eexists. split; [apply in_or_app; right; left; reflexivity|].
    split; reflexivity.
Qed.

(** ** Python strings: further facts *)

Lemma lstrip_length (s : string) :
  (String.length (Py.lstrip s) <= String.length s)%nat.
Proof.
  induction s as [|c s IH]; simpl; [lia|].
  destruct (Py.isspace c); simpl; lia.
Qed.

Lemma rstrip_length (s : string) :
  (String.length (Py.rstrip s) <= String.length s)%nat.
Proof.
  induction s as [|c s IH]; simpl; [lia|].
  destruct (Py.rstrip s) as [|c' r]; simpl in *.
  - destruct (Py.isspace c); simpl; lia.
  - lia.
Qed.

Lemma strip_len (s : string) : Py.len (Py.strip s) <= Py.len s.
Proof.
  unfold Py.len, Py.strip.
  pose proof (rstrip_length (Py.lstrip s)). pose proof (lstrip_length s).
  lia.
Qed.

Lemma strip_only_whitespace (s : string) :
  only_whitespace s = true -> Py.strip s = EmptyString.
Proof.
  unfold Py.strip. induction s as [|c s IH]; simpl; [reflexivity|].
  intros H. apply andb_true_iff in H. destruct H as [Hc Hs].
  rewrite Hc. apply IH. exact Hs.
Qed.

Lemma lower_char_idem (c : ascii) :
  Py.lower_char (Py.lower_char c) = Py.lower_char c.
Proof. destruct c as [[] [] [] [] [] [] [] []]; reflexivity. Qed.

Lemma lower_idem (s : string) : Py.lower (Py.lower s) = Py.lower s.
Proof.
  induction s as [|c s IH]; simpl; [reflexivity|].
  rewrite lower_char_idem, IH. reflexivity.
Qed.

Lemma substring_length (m n : nat) (s : string) :
  (String.length (substring m n s) <= n)%nat.
Proof.
  revert m n. induction s as [|c s IH]; intros [|m] [|n]; simpl;
    try lia.
  - specialize (IH 0%nat n). lia.
  - apply (IH m 0%nat).
  - apply (IH m (S n)).
Qed.

(** ** The integrity of reachable stores *)

Lemma next_rowid_positive (ids : list Z) : 0 < next_rowid ids.
Proof.
  unfold next_rowid. induction ids as [|i ids IH]; cbn [fold_right]; lia.
Qed.

Lemma insert_game_store_inv (db db' : DB)
    (uuid4_hex name email token now : string) :
  store_inv db -> Py.len name <= 100 ->
  insert_game db ("g_" ++ substring 0 16 uuid4_hex) (Py.strip name)
    (Py.lower email) (generate_api_key token) now = Some db' ->
  store_inv db'.
Proof.
  intros [Hids Hg Hh] Hname. unfold insert_game.
  destruct (existsb _ (games_table db)); [discriminate|].
  intros [= <-]. split; simpl.
  - exact Hids.
  - intros g Hin. apply in_app_iff in Hin. destruct Hin as [Hin | [<- | []]].
    + apply Hg. exact Hin.
    + unfold game_row_ok. simpl games.id. simpl games.name.
      simpl games.email. simpl games.public_id. simpl games.api_key.
      split; [apply next_rowid_positive|].
      split; [pose proof (strip_len name); lia|].
      split; [apply strip_idem|]. split; [apply lower_idem|].
      split; [|exists token; reflexivity].
      exists (substring 0 16 uuid4_hex). split; [reflexivity|].
      unfold Py.len. pose proof (substring_length 0 16 uuid4_hex). lia.
  - exact Hh.
Qed.

Lemma insert_highscore_store_inv (db : DB) (gid : Z)
    (hs : HighscoreIn.t) (now : string) :
  store_inv db -> HighscoreIn.valid hs = true ->
  store_inv (insert_highscore db gid
               (Py.strip (HighscoreIn.player_name hs))
               (HighscoreIn.score hs) now).
Proof.
  intros [Hids Hg Hh] Hv. unfold HighscoreIn.valid in Hv.
  rewrite !andb_true_iff, !Z.leb_le in Hv. split; simpl.
  - rewrite map_app. simpl. apply NoDup_snoc; [exact Hids|].
    intros Hin. apply next_rowid_above in Hin. lia.
  - exact Hg.
  - intros h Hin. apply in_app_iff in Hin.
    destruct Hin as [Hin | [<- | []]]; [apply Hh; exact Hin|].
    unfold highscore_row_ok. simpl.
    split; [apply next_rowid_positive|].
    split; [pose proof (strip_len (HighscoreIn.player_name hs)); lia|].
    split; [apply strip_idem | lia].
Qed.

Lemma delete_from_highscores_store_inv (db : DB) (gid : Z) :
  store_inv db -> store_inv (snd (delete_from_highscores db gid)).
Proof.
  intros [Hids Hg Hh]. split; simpl.
  - apply NoDup_map_filter. exact Hids.
  - exact Hg.
  - intros h Hin. apply filter_In in Hin. apply Hh. tauto.
Qed.

Lemma delete_game_store_inv (db : DB) (gid : Z) :
  store_inv db ->
  store_inv (delete_from_games (snd (delete_from_highscores db gid)) gid).
Proof.
  intros [Hids Hg Hh]. split; simpl.
  - apply NoDup_map_filter. exact Hids.
  - intros g Hin. apply filter_In in Hin. apply Hg. tauto.
  - intros h Hin. apply filter_In in Hin. apply Hh. tauto.
Qed.

Lemma validate_GameCreate_some (body game : GameCreate.t) :
  validate_GameCreate body = Some game ->
  1 <= Py.len (GameCreate.name body) <= 100
  /\ GameCreate.name game = GameCreate.name body
  /\ EmailStr (GameCreate.email body) = Some (GameCreate.email game).
Proof.
  unfold validate_GameCreate.
  destruct ((1 <=? Py.len (GameCreate.name body))
            && (Py.len (GameCreate.name body) <=? 100)) eqn:E;
    [|discriminate].
  apply andb_true_iff in E. rewrite !Z.leb_le in E.
  destruct (EmailStr (GameCreate.email body)) as [e|]; [|discriminate].
  intros [= <-]. simpl. auto.
Qed.

Lemma empty_db_store_inv : store_inv empty_db.
Proof. split; simpl; [apply NoDup_nil | intros g [] | intros h []]. Qed.

Lemma handle_store_inv (db : DB) (req : request) :
  store_inv db -> store_inv (snd (handle db req)).
Proof.
  intros Hinv. destruct req; simpl; try exact Hinv.
  - unfold create_game.
    destruct (validate_GameCreate body) as [game|] eqn:Hv; [|exact Hinv].
    destruct (insert_game _ _ _ _ _ _) eqn:Hins; [|exact Hinv].
    simpl. destruct (validate_GameCreate_some _ _ Hv) as (Hlen & Hname & _).
    eapply insert_game_store_inv; [exact Hinv | | exact Hins].
    rewrite Hname. lia.
  - unfold submit_highscore.
    destruct (HighscoreIn.valid hs) eqn:Hv; [|exact Hinv]. simpl.
    destruct (get_game_by_public_id db public_id) as [game|] eqn:Hg;
      [|exact Hinv].
    simpl. apply insert_highscore_store_inv; auto.
  - unfold delete_highscores.
    destruct (verify_game_ownership_or_admin _ _ _ _); [|exact Hinv].
    simpl. apply (delete_from_highscores_store_inv db). exact Hinv.
  - unfold delete_game.
    destruct (verify_game_ownership_or_admin _ _ _ _); [|exact Hinv].
    simpl. apply delete_game_store_inv. exact Hinv.
Qed.

Lemma run_store_inv (reqs : list request) (db : DB) :
  store_inv db -> store_inv (run reqs db).
Proof.
  revert db. induction reqs as [|req reqs IH]; intros db Hinv; simpl.
  - exact Hinv.
  - apply IH, handle_store_inv, Hinv.
Qed.

Lemma reachable_store_inv (db : DB) : reachable db -> store_inv db.
Proof. intros [reqs ->]. apply run_store_inv, empty_db_store_inv. Qed.

Lemma handle_no_orphans (db : DB) (req : request) :
  no_orphans db -> no_orphans (snd (handle db req)).
Proof.
  intros Hown. destruct req; simpl; try exact Hown.
  - unfold create_game.
    destruct (validate_GameCreate body) as [game|]; [|exact Hown].
    unfold insert_game. destruct (existsb _ (games_table db)); [exact Hown|].
    simpl. intros h Hin. destruct (Hown h Hin) as (g & Hg & Hid).
    exists g. split; [apply in_or_app; left; exact Hg | exact Hid].
  - unfold submit_highscore. destruct (negb _); [exact Hown|].
    destruct (get_game_by_public_id db public_id) as [game|] eqn:Hg;
      [|exact Hown].
    simpl. intros h Hin. apply in_app_iff in Hin.
    destruct Hin as [Hin | [<- | []]]; [apply Hown; exact Hin|].
    exists game. split; [apply (get_game_some _ _ _ Hg) | reflexivity].
  - unfold delete_highscores.
    destruct (verify_game_ownership_or_admin _ _ _ _); [|exact Hown].
    simpl. intros h Hin. apply filter_In in Hin. apply Hown. tauto.
  - unfold delete_game.
    destruct (verify_game_ownership_or_admin _ _ _ _) as [t|]; [|exact Hown].
    simpl. intros h Hin. apply filter_In in Hin. destruct Hin as [Hin Hne].
    destruct (Hown h Hin) as (g & Hg & Hid). exists g.
    split; [|exact Hid]. apply filter_In. split; [exact Hg|].
    unfold owned_by in Hne. rewrite Hid. exact Hne.
Qed.

(** X1. A request handled from its lookup to its commit with no other
    request in between keeps every score entry with a stored tenant: if no
    entry of the store is an orphan before the request, none is after it,
    and so after any sequence of such requests.  (Requests that interleave
    are not covered: a [delete_game] committed between the lookup and the
    insert of a [submit_highscore] leaves an orphan.)  In every store the
    service reaches, the ids of the tenants and of the score entries are
    unique. *)
Theorem requests_keep_entries_owned (db : DB) :
  (no_orphans db ->
   (forall req, no_orphans (snd (handle db req)))
   /\ (forall reqs, no_orphans (run reqs db)))
  /\ (reachable db ->
      NoDup (map games.id (games_table db))
      /\ NoDup (map highscores.id (highscores_table db))).
Proof.
  split.
  - intros Hown. split; [intros req; apply handle_no_orphans, Hown|].
    intros reqs. revert db Hown.
    induction reqs as [|req reqs IH]; intros db Hown; simpl; [exact Hown|].
    apply IH, handle_no_orphans, Hown.
  - intros Hreach. split.
    + apply (inv_ids db (reachable_inv db Hreach)).
    + apply (sinv_highscore_ids db (reachable_store_inv db Hreach)).
Qed.

(** X2. In every store the service reaches, each tenant row and each
    score entry is within the input contracts: names trimmed and within
    100 and 32 characters, [email] in lower case, [public_id] made of [g_]
    and at most 16 characters, [api_key] made of [sk_] and a token, scores
    within 0..1000000000, ids positive. *)
Theorem stored_rows_within_contract (db : DB) :
  reachable db ->
  (forall g, In g (games_table db) -> game_row_ok g)
  /\ (forall h, In h (highscores_table db) -> highscore_row_ok h).
Proof.
  intros Hreach. pose proof (reachable_store_inv db Hreach) as Hs.
  split; [apply (sinv_games db Hs) | apply (sinv_highscores db Hs)].
Qed.

(** X3. In every store the service reaches, the lookup by [public_id]
    finds a tenant exactly when that tenant is stored under that
    [public_id], and finds nothing exactly when no stored tenant has it. *)
Theorem lookup_sound_complete (db : DB) (public_id : string) :
  reachable db ->
  (forall g, get_game_by_public_id db public_id = Some g
             <-> In g (games_table db) /\ games.public_id g = public_id)
  /\ (get_game_by_public_id db public_id = None
      <-> forall g, In g (games_table db) -> games.public_id g <> public_id).
Proof.
  intros Hreach. pose proof (reachable_inv db Hreach) as Hi. split.
  - intros g. split; [apply get_game_some|].
    intros [Hin <-]. apply get_game_of_In; [apply (inv_public_ids db Hi)|].
    exact Hin.
  - split; [apply get_game_none|].
    intros Hnone.
    destruct (get_game_by_public_id db public_id) as [g|] eqn:E;
      [|reflexivity].
    destruct (get_game_some _ _ _ E) as [Hin Hp].
    exfalso. exact (Hnone g Hin Hp).
Qed.

(** ** Registration *)

Lemma find_snoc {A : Type} (p : A -> bool) (l : list A) (x : A) :
  find p (l ++ [x])
  = match find p l with
    | Some y => Some y
    | None => if p x then Some x else None
    end.
Proof.
  induction l as [|y l IH]; simpl; [reflexivity|].
  destruct (p y); [reflexivity | exact IH].
Qed.

Lemma existsb_collision (db : DB) (public_id api_key : string) :
  existsb (fun g => (games.public_id g =? public_id)%string
                    || (games.api_key g =? api_key)%string)
    (games_table db) = true
  <-> exists g, In g (games_table db)
                /\ (games.public_id g = public_id
                    \/ games.api_key g = api_key).
Proof.
  rewrite existsb_exists. split; intros (g & Hin & H); exists g;
    (split; [exact Hin|]).
  - apply orb_true_iff in H. rewrite !String.eqb_eq in H. exact H.
  - apply orb_true_iff. rewrite !String.eqb_eq. exact H.
Qed.

Lemma create_game_return (db db' : DB) (body : GameCreate.t)
    (uuid4_hex token_urlsafe now : string) (out : GameOut.t) :
  create_game db body uuid4_hex token_urlsafe now = (Return out, db') ->
  exists game,
    validate_GameCreate body = Some game
    /\ (forall g, In g (games_table db) ->
                  games.public_id g <> "g_" ++ substring 0 16 uuid4_hex
                  /\ games.api_key g <> generate_api_key token_urlsafe)
    /\ out = GameOut.mk ("g_" ++ substring 0 16 uuid4_hex)
               (Py.strip (GameCreate.name game))
               (Py.lower (GameCreate.email game))
               (generate_api_key token_urlsafe) now
    /\ db' = mkDB
               (games_table db ++
                  [games.mk (next_rowid (map games.id (games_table db)))
                     ("g_" ++ substring 0 16 uuid4_hex)
                     (Py.strip (GameCreate.name game))
                     (Py.lower (GameCreate.email game))
                     (generate_api_key token_urlsafe) now])
               (highscores_table db).
Proof.
  unfold create_game.
  destruct (validate_GameCreate body) as [game|]; [|discriminate].
  unfold insert_game.
  destruct (existsb _ (games_table db)) eqn:Hex; [discriminate|].
  intros [= <- <-]. exists game. split; [reflexivity|].
  split; [|split; reflexivity].
  intros g Hin. split; intros Heq.
  - assert (Hc : existsb (fun g0 =>
                    (games.public_id g0 =? "g_" ++ substring 0 16 uuid4_hex)%string
                    || (games.api_key g0 =? generate_api_key token_urlsafe)%string)
                   (games_table db) = true)
      by (apply existsb_collision; exists g; auto).
    congruence.
  - assert (Hc : existsb (fun g0 =>
                    (games.public_id g0 =? "g_" ++ substring 0 16 uuid4_hex)%string
                    || (games.api_key g0 =? generate_api_key token_urlsafe)%string)
                   (games_table db) = true)
      by (apply existsb_collision; exists g; auto).
    congruence.
Qed.

Lemma lookup_after_insert (l : list games.row) (row : games.row) :
  (forall g, In g l -> games.public_id g <> games.public_id row) ->
  find (fun g => (games.public_id g =? games.public_id row)%string)
    (l ++ [row]) = Some row.
Proof.
  intros Hfresh. rewrite find_snoc.
  destruct (find _ l) as [g|] eqn:E.
  - apply find_some in E. destruct E as [Hin Heq].
    apply String.eqb_eq in Heq. exfalso. exact (Hfresh g Hin Heq).
  - rewrite String.eqb_refl. reflexivity.
Qed.

(** X4. A registration that goes through can be read back: the lookup of
    the returned [public_id] finds a row with the returned [name], [email],
    [api_key] and [created_at]; [get_game] shows the admin the returned
    [public_id], [name] and [created_at]; and the returned [api_key] opens
    the owner-or-admin routes of the new tenant, with or without an admin
    token. *)
Theorem create_game_round_trip (db db' : DB) (body : GameCreate.t)
    (uuid4_hex token_urlsafe now : string) (out : GameOut.t)
    (x_admin_token : option string) :
  create_game db body uuid4_hex token_urlsafe now = (Return out, db') ->
  exists row,
    get_game_by_public_id db' (GameOut.public_id out) = Some row
    /\ games.public_id row = GameOut.public_id out
    /\ games.name row = GameOut.name out
    /\ games.email row = GameOut.email out
    /\ games.api_key row = GameOut.api_key out
    /\ games.created_at row = GameOut.created_at out
    /\ GameOut.created_at out = now
    /\ get_game db' (GameOut.public_id out) (Some ADMIN_TOKEN)
       = Return (GameInfo.mk (GameOut.public_id out) (GameOut.name out) now)
    /\ verify_game_ownership_or_admin db' (GameOut.public_id out)
         (Some (GameOut.api_key out)) x_admin_token = Return row.
Proof.
  intros Hc. destruct (create_game_return _ _ _ _ _ _ _ Hc)
    as (game & _ & Hfresh & -> & ->).
  set (row := games.mk (next_rowid (map games.id (games_table db)))
                ("g_" ++ substring 0 16 uuid4_hex)
                (Py.strip (GameCreate.name game))
                (Py.lower (GameCreate.email game))
                (generate_api_key token_urlsafe) now).
  assert (Hl : get_game_by_public_id
                 (mkDB (games_table db ++ [row]) (highscores_table db))
                 ("g_" ++ substring 0 16 uuid4_hex) = Some row).
  { apply (lookup_after_insert (games_table db) row).
    intros g Hin. apply (Hfresh g Hin). }
  exists row. cbn [GameOut.public_id GameOut.name GameOut.email
                     GameOut.api_key GameOut.created_at].
  split; [exact Hl|]. do 6 (split; [reflexivity|]). split.
  - unfold get_game, require_admin_token, header_is.
    rewrite String.eqb_refl. cbn [negb bind]. rewrite Hl. reflexivity.
  - unfold verify_game_ownership_or_admin. rewrite Hl.
    destruct (header_is x_admin_token ADMIN_TOKEN); [reflexivity|].
    unfold api_key_matches. cbn [games.api_key row].
    rewrite String.eqb_refl. reflexivity.
Qed.

(** X5. A registration whose body is valid fails on the UNIQUE
    constraints exactly when a stored tenant already has the drawn
    [public_id] or the drawn [api_key]; it then leaves the store as it was;
    otherwise it goes through. *)
Theorem create_game_collision (db : DB) (body game : GameCreate.t)
    (uuid4_hex token_urlsafe now : string) :
  validate_GameCreate body = Some game ->
  let collision :=
    exists g, In g (games_table db)
              /\ (games.public_id g = "g_" ++ substring 0 16 uuid4_hex
                  \/ games.api_key g = generate_api_key token_urlsafe) in
  (fst (create_game db body uuid4_hex token_urlsafe now) = Raise IntegrityError
   <-> collision)
  /\ (collision ->
      create_game db body uuid4_hex token_urlsafe now
      = (Raise IntegrityError, db))
  /\ (~ collision ->
      exists out db',
        create_game db body uuid4_hex token_urlsafe now = (Return out, db')).
Proof.
  intros Hv collision. unfold create_game, insert_game. rewrite Hv.
  pose proof (existsb_collision db ("g_" ++ substring 0 16 uuid4_hex)
                (generate_api_key token_urlsafe)) as Hex.
  fold collision in Hex.
  destruct (existsb _ (games_table db)); cbn [fst].
  - split; [tauto|]. split; [reflexivity|].
    intros Hn. exfalso. apply Hn, Hex. reflexivity.
  - split; [|split].
    + split; [discriminate|]. intros Hc. apply Hex in Hc. discriminate.
    + intros Hc. apply Hex in Hc. discriminate.
    + intros _. eauto.
Qed.

(** X6. A registration that goes through adds one tenant row at the end
    of the table and touches nothing else: the score entries are as they
    were, and every tenant found before is found as before, with the same
    entries and the same rankings. *)
Theorem create_game_keeps_others (db db' : DB) (body : GameCreate.t)
    (uuid4_hex token_urlsafe now : string) (out : GameOut.t) :
  create_game db body uuid4_hex token_urlsafe now = (Return out, db') ->
  highscores_table db' = highscores_table db
  /\ (exists row, games_table db' = (games_table db ++ [row])%list)
  /\ (forall public_id g,
        get_game_by_public_id db public_id = Some g ->
        get_game_by_public_id db' public_id = Some g
        /\ entries_of db' g = entries_of db g
        /\ forall limit,
             get_highscores db' public_id limit
             = get_highscores db public_id limit).
Proof.
  intros Hc. destruct (create_game_return _ _ _ _ _ _ _ Hc)
    as (game & _ & _ & _ & ->).
  split; [reflexivity|]. split; [eexists; reflexivity|].
  intros public_id g Hg.
  assert (Hg' : get_game_by_public_id
                  (mkDB (games_table db ++
                           [games.mk
                              (next_rowid (map games.id (games_table db)))
                              ("g_" ++ substring 0 16 uuid4_hex)
                              (Py.strip (GameCreate.name game))
                              (Py.lower (GameCreate.email game))
                              (generate_api_key token_urlsafe) now])
                     (highscores_table db)) public_id = Some g).
  { unfold get_game_by_public_id in *. cbn [games_table].
    rewrite find_snoc, Hg. reflexivity. }
  split; [exact Hg'|]. split; [reflexivity|].
  intros limit. unfold get_highscores. rewrite Hg', Hg. reflexivity.
Qed.

(** X7. A registration is refused with a validation error, the store
    left as it was, exactly when the [name] is empty or longer than 100
    characters or the [email] is no address. *)
Theorem create_game_validation (db : DB) (body : GameCreate.t)
    (uuid4_hex token_urlsafe now : string) :
  (fst (create_game db body uuid4_hex token_urlsafe now)
   = Raise RequestValidationError
   <-> Py.len (GameCreate.name body) < 1
       \/ 100 < Py.len (GameCreate.name body)
       \/ EmailStr (GameCreate.email body) = None)
  /\ (fst (create_game db body uuid4_hex token_urlsafe now)
      = Raise RequestValidationError ->
      snd (create_game db body uuid4_hex token_urlsafe now) = db).
Proof.
  unfold create_game, validate_GameCreate.
  destruct ((1 <=? Py.len (GameCreate.name body))
            && (Py.len (GameCreate.name body) <=? 100)) eqn:E.
  - apply andb_true_iff in E. rewrite !Z.leb_le in E.
    destruct (EmailStr (GameCreate.email body)) as [e|]; cbn [fst snd].
    + destruct (insert_game _ _ _ _ _ _); cbn [fst snd];
        (split; [split; [discriminate|] | discriminate]);
        intros [H | [H | H]]; try lia; discriminate.
    + split; [split; auto | reflexivity].
  - cbn [fst snd]. split; [|reflexivity].
    split; [|reflexivity]. intros _.
    apply andb_false_iff in E. rewrite !Z.leb_gt in E. lia.
Qed.

(** X8. After a registration that goes through, [get_highscores] on
    the new [public_id] returns, for every [limit] within 1..50, the
    ranking of the stored entries that carry the rowid the new tenant
    received.  The ranking is empty when no entry of the store was an
    orphan; when an orphan entry carried that rowid, the new tenant's
    ranking is not empty: it starts out with entries it never received. *)
Theorem new_game_ranking (db db' : DB) (body : GameCreate.t)
    (uuid4_hex token_urlsafe now : string) (out : GameOut.t) (n : Z) :
  create_game db body uuid4_hex token_urlsafe now = (Return out, db') ->
  1 <= n <= 50 ->
  get_highscores db' (GameOut.public_id out) (Some n)
  = Return (HighscoreList.mk (GameOut.public_id out)
              (map to_HighscoreOut
                 (firstn (Z.to_nat n)
                    (order_by score_desc_created_asc
                       (entries_under_next_id db)))))
  /\ (no_orphans db ->
      get_highscores db' (GameOut.public_id out) (Some n)
      = Return (HighscoreList.mk (GameOut.public_id out) []))
  /\ (entries_under_next_id db <> [] ->
      exists o rest,
        get_highscores db' (GameOut.public_id out) (Some n)
        = Return (HighscoreList.mk (GameOut.public_id out) (o :: rest))).
Proof.
  intros Hc Hn.
  destruct (create_game_return _ _ _ _ _ _ _ Hc)
    as (game & _ & Hfresh & Hout & Hdb).
  set (row := games.mk (next_rowid (map games.id (games_table db)))
                ("g_" ++ substring 0 16 uuid4_hex)
                (Py.strip (GameCreate.name game))
                (Py.lower (GameCreate.email game))
                (generate_api_key token_urlsafe) now) in Hdb.
  assert (Hl : get_game_by_public_id db' (GameOut.public_id out) = Some row).
  { rewrite Hdb, Hout. cbn [GameOut.public_id].
    apply (lookup_after_insert (games_table db) row).
    intros g Hin. apply (Hfresh g Hin). }
  assert (He : entries_of db' row = entries_under_next_id db)
    by (rewrite Hdb; reflexivity).
  assert (Hget : get_highscores db' (GameOut.public_id out) (Some n)
                 = Return (HighscoreList.mk (GameOut.public_id out)
                             (map to_HighscoreOut
                                (firstn (Z.to_nat n)
                                   (order_by score_desc_created_asc
                                      (entries_under_next_id db)))))).
  { rewrite (get_highscores_known db' _ row n Hl Hn).
    rewrite (select_top_in_range db' row n Hn), He. reflexivity. }
  split; [exact Hget|]. split.
  - intros Hown. rewrite Hget.
    assert (Hnone : entries_under_next_id db = []).
    { unfold entries_under_next_id.
      destruct (filter _ (highscores_table db)) as [|h hs] eqn:Ef;
        [reflexivity|].
      assert (Hin : In h (filter
                            (owned_by
                               (next_rowid (map games.id (games_table db))))
                            (highscores_table db)))
        by (rewrite Ef; left; reflexivity).
      apply filter_In in Hin. destruct Hin as [Hin Ho].
      unfold owned_by in Ho. apply Z.eqb_eq in Ho.
      destruct (Hown h Hin) as (g & Hg & Hid).
      pose proof (next_rowid_above (map games.id (games_table db))
                    (games.id g) (in_map games.id _ _ Hg)). lia. }
    rewrite Hnone. cbn [order_by]. rewrite firstn_nil. reflexivity.
  - intros Hstale. rewrite Hget.
    destruct (order_by score_desc_created_asc (entries_under_next_id db))
      as [|r s] eqn:Hs.
    + exfalso. apply Hstale.
      pose proof (order_by_length score_desc_created_asc
                    (entries_under_next_id db)) as Hlen.
      rewrite Hs in Hlen. destruct (entries_under_next_id db);
        [reflexivity | discriminate].
    + destruct (Z.to_nat n) as [|k] eqn:Hk; [lia|].
      cbn [firstn map]. eexists. eexists. reflexivity.
Qed.

(** ** Submission, further *)

(** X9. Every valid submission to a tenant that exists adds a row of its
    own: the same payload submitted twice leaves two entries with the same
    name and score and different ids at the end of the tenant's entries,
    and the entries of every other tenant are as they were. *)
Theorem submit_never_overwrites (db : DB) (public_id : string)
    (tenant : games.row) (hs : HighscoreIn.t) (now now' : string) :
  get_game_by_public_id db public_id = Some tenant ->
  HighscoreIn.valid hs = true ->
  let db1 := snd (submit_highscore db public_id hs now) in
  let db2 := snd (submit_highscore db1 public_id hs now') in
  (exists row1 row2,
     entries_of db2 tenant = (entries_of db tenant ++ [row1; row2])%list
     /\ highscores.id row1 <> highscores.id row2
     /\ ~ In (highscores.id row1) (map highscores.id (highscores_table db))
     /\ highscores.player_name row1 = highscores.player_name row2
     /\ highscores.score row1 = highscores.score row2
     /\ highscores.created_at row1 = now
     /\ highscores.created_at row2 = now')
  /\ (forall U, games.id U <> games.id tenant ->
                entries_of db1 U = entries_of db U
                /\ entries_of db2 U = entries_of db U).
Proof.
  intros Hg Hv db1 db2. subst db2 db1.
  rewrite (submit_known db public_id tenant hs now Hg Hv). cbn [snd].
  set (db1 := insert_highscore db (games.id tenant)
                (Py.strip (HighscoreIn.player_name hs))
                (HighscoreIn.score hs) now).
  assert (Hg1 : get_game_by_public_id db1 public_id = Some tenant)
    by exact Hg.
  rewrite (submit_known db1 public_id tenant hs now' Hg1 Hv). cbn [snd].
  split.
  - eexists. eexists. rewrite entries_insert_highscore.
    unfold db1 at 1. rewrite entries_insert_highscore.
    rewrite <- app_assoc. cbn [app]. split; [reflexivity|].
    cbn [highscores.id highscores.player_name highscores.score
           highscores.created_at].
    split.
    + pose proof (next_rowid_above (map highscores.id (highscores_table db1))
                    (next_rowid (map highscores.id (highscores_table db)))).
      intros Heq. rewrite <- Heq in H.
      assert (Hin : In (next_rowid (map highscores.id (highscores_table db)))
                      (map highscores.id (highscores_table db1))).
      { unfold db1, insert_highscore. cbn [highscores_table].
        rewrite map_app. apply in_or_app. right. left. reflexivity. }
      specialize (H Hin). lia.
    + split; [|repeat split; reflexivity].
      intros Hin. apply next_rowid_above in Hin. lia.
  - intros U HU.
    assert (Hf : forall d name score t,
              entries_of (insert_highscore d (games.id tenant) name score t) U
              = entries_of d U).
    { intros d name score t. unfold entries_of, insert_highscore.
      cbn [highscores_table]. rewrite filter_app. cbn [filter].
      unfold owned_by at 2. cbn [highscores.game_id].
      replace (games.id tenant =? games.id U) with false
        by (symmetry; apply Z.eqb_neq; congruence).
      apply app_nil_r. }
    split; [apply Hf|]. rewrite Hf. apply Hf.
Qed.

(** X10. The length of [player_name] is checked before the name is
    trimmed: a name of 1 to 32 whitespace characters, with a score within
    range, is accepted, and is stored and returned as the empty string. *)
Theorem whitespace_name_stored_empty (db : DB) (public_id : string)
    (tenant : games.row) (hs : HighscoreIn.t) (now : string) :
  get_game_by_public_id db public_id = Some tenant ->
  only_whitespace (HighscoreIn.player_name hs) = true ->
  1 <= Py.len (HighscoreIn.player_name hs) <= 32 ->
  0 <= HighscoreIn.score hs <= 1000000000 ->
  submit_highscore db public_id hs now
  = (Return (HighscoreOut.mk "" (HighscoreIn.score hs) now),
     insert_highscore db (games.id tenant) "" (HighscoreIn.score hs) now).
Proof.
  intros Hg Hw Hlen Hscore.
  assert (Hv : HighscoreIn.valid hs = true).
  { unfold HighscoreIn.valid. rewrite !andb_true_iff, !Z.leb_le. lia. }
  rewrite (submit_known db public_id tenant hs now Hg Hv).
  rewrite (strip_only_whitespace _ Hw). reflexivity.
Qed.

(** X11. A request that is answered with an error changes nothing: when
    [create_game], [submit_highscore], [delete_highscores] or [delete_game]
    raises, the store is as it was. *)
Theorem failed_requests_change_nothing (db : DB) (e : exn) :
  (forall body uuid4_hex token_urlsafe now,
     fst (create_game db body uuid4_hex token_urlsafe now) = Raise e ->
     snd (create_game db body uuid4_hex token_urlsafe now) = db)
  /\ (forall public_id hs now,
        fst (submit_highscore db public_id hs now) = Raise e ->
        snd (submit_highscore db public_id hs now) = db)
  /\ (forall public_id x_api_key x_admin_token,
        fst (delete_highscores db public_id x_api_key x_admin_token)
        = Raise e ->
        snd (delete_highscores db public_id x_api_key x_admin_token) = db)
  /\ (forall public_id x_api_key x_admin_token,
        fst (delete_game db public_id x_api_key x_admin_token) = Raise e ->
        snd (delete_game db public_id x_api_key x_admin_token) = db).
Proof.
  split; [|split; [|split]].
  - intros body uuid4_hex token_urlsafe now. unfold create_game.
    destruct (validate_GameCreate body); [|reflexivity].
    destruct (insert_game _ _ _ _ _ _); [discriminate | reflexivity].
  - intros public_id hs now. unfold submit_highscore.
    destruct (negb (HighscoreIn.valid hs)); [reflexivity|].
    destruct (get_game_by_public_id db public_id);
      [discriminate | reflexivity].
  - intros public_id k t. unfold delete_highscores.
    destruct (verify_game_ownership_or_admin db public_id k t);
      [discriminate | reflexivity].
  - intros public_id k t. unfold delete_game.
    destruct (verify_game_ownership_or_admin db public_id k t);
      [discriminate | reflexivity].
Qed.

(** ** The ranked query, further *)

Lemma sorted_firstn {A : Type} (R : A -> A -> Prop) (n : nat) (l : list A) :
  StronglySorted R l -> StronglySorted R (firstn n l).
Proof.
  intros H. revert n. induction H as [|x l Hs IH Hx]; intros [|n]; simpl;
    try constructor.
  - apply IH.
  - rewrite Forall_forall in *. intros y Hy. apply Hx.
    exact (In_firstn _ _ _ Hy).
Qed.

Lemma ranked_scores (l : list highscores.row) :
  StronglySorted ranks_before l ->
  StronglySorted score_not_above (map to_HighscoreOut l).
Proof.
  induction 1 as [|x l Hs IH Hx]; simpl; constructor; [exact IH|].
  rewrite Forall_forall in *. intros o Ho. apply in_map_iff in Ho.
  destruct Ho as (y & <- & Hy). specialize (Hx y Hy).
  unfold score_not_above, ranks_before in *. simpl. lia.
Qed.

Lemma ranking_head (l : list highscores.row) (r : highscores.row)
    (rest : list highscores.row) :
  order_by score_desc_created_asc l = r :: rest ->
  In r l /\ forall h, In h l -> highscores.score h <= highscores.score r.
Proof.
  intros Hs. pose proof (ranked_sorted l) as Hsorted.
  pose proof (order_by_perm score_desc_created_asc l) as Hperm.
  rewrite Hs in Hsorted, Hperm. split.
  - apply (Permutation_in _ Hperm). left. reflexivity.
  - intros h Hh. apply (Permutation_in _ (Permutation_sym Hperm)) in Hh.
    destruct Hh as [<- | Hh]; [lia|].
    inversion Hsorted as [|? ? _ Hall]; subst.
    rewrite Forall_forall in Hall. specialize (Hall h Hh).
    unfold ranks_before in Hall. lia.
Qed.

(** X12. Rankings of one store agree: for [n <= m] within 1..50, the
    ranking with [limit = n] is the first [n] entries of the ranking with
    [limit = m]. *)
Theorem top_n_prefix (db : DB) (public_id : string) (tenant : games.row)
    (n m : Z) :
  get_game_by_public_id db public_id = Some tenant ->
  1 <= n <= m -> m <= 50 ->
  exists ln lm,
    get_highscores db public_id (Some n) = Return ln
    /\ get_highscores db public_id (Some m) = Return lm
    /\ HighscoreList.highscores ln
       = firstn (Z.to_nat n) (HighscoreList.highscores lm).
Proof.
  intros Hg Hn Hm.
  rewrite (get_highscores_known db public_id tenant n Hg) by lia.
  rewrite (get_highscores_known db public_id tenant m Hg) by lia.
  rewrite (select_top_in_range db tenant n) by lia.
  rewrite (select_top_in_range db tenant m) by lia.
  eexists. eexists. split; [reflexivity|]. split; [reflexivity|].
  cbn [HighscoreList.highscores]. rewrite firstn_map, firstn_firstn.
  replace (Nat.min (Z.to_nat n) (Z.to_nat m)) with (Z.to_nat n) by lia.
  reflexivity.
Qed.

(** X13. In a ranking the scores never increase from one entry to the
    next; the ranking of a tenant that has entries is not empty, and its
    first entry has the highest score among all of the tenant's entries. *)
Theorem top_score_first (db : DB) (public_id : string) (tenant : games.row)
    (n : Z) (l : HighscoreList.t) :
  get_game_by_public_id db public_id = Some tenant ->
  1 <= n <= 50 ->
  get_highscores db public_id (Some n) = Return l ->
  StronglySorted score_not_above (HighscoreList.highscores l)
  /\ (entries_of db tenant <> [] -> HighscoreList.highscores l <> [])
  /\ (forall o rest,
        HighscoreList.highscores l = o :: rest ->
        forall h, In h (entries_of db tenant) ->
                  highscores.score h <= HighscoreOut.score o).
Proof.
  intros Hg Hn Hl.
  rewrite (get_highscores_known db public_id tenant n Hg Hn) in Hl.
  rewrite (select_top_in_range db tenant n Hn) in Hl.
  injection Hl as <-. cbn [HighscoreList.highscores].
  destruct (Z.to_nat n) as [|k] eqn:Hk; [lia|].
  split; [apply ranked_scores, sorted_firstn, ranked_sorted|].
  destruct (order_by score_desc_created_asc (entries_of db tenant))
    as [|r s] eqn:Hs.
  - split.
    + intros Hne. exfalso. apply Hne.
      pose proof (order_by_length score_desc_created_asc
                    (entries_of db tenant)) as Hlen.
      rewrite Hs in Hlen. destruct (entries_of db tenant);
        [reflexivity | discriminate].
    + intros o rest Ho. discriminate.
  - split; [discriminate|].
    intros o rest Ho h Hh. cbn [firstn map] in Ho. injection Ho as <- _.
    exact (proj2 (ranking_head _ _ _ Hs) h Hh).
Qed.

(** X14. A new best score goes to the top: after a valid submission
    whose score is above every score the tenant has, each ranking of the
    tenant starts with the submitted entry. *)
Theorem new_best_score_ranked_first (db : DB) (public_id : string)
    (tenant : games.row) (hs : HighscoreIn.t) (now : string) (n : Z) :
  get_game_by_public_id db public_id = Some tenant ->
  HighscoreIn.valid hs = true ->
  (forall h, In h (entries_of db tenant) ->
             highscores.score h < HighscoreIn.score hs) ->
  1 <= n <= 50 ->
  exists rest,
    get_highscores (snd (submit_highscore db public_id hs now)) public_id
      (Some n)
    = Return (HighscoreList.mk public_id
                (HighscoreOut.mk (Py.strip (HighscoreIn.player_name hs))
                   (HighscoreIn.score hs) now :: rest)).
Proof.
  intros Hg Hv Hbest Hn.
  rewrite (submit_known db public_id tenant hs now Hg Hv). cbn [snd].
  set (db1 := insert_highscore db (games.id tenant)
                (Py.strip (HighscoreIn.player_name hs))
                (HighscoreIn.score hs) now).
  assert (Hg1 : get_game_by_public_id db1 public_id = Some tenant)
    by exact Hg.
  rewrite (get_highscores_known db1 public_id tenant n Hg1 Hn).
  rewrite (select_top_in_range db1 tenant n Hn).
  unfold db1. rewrite entries_insert_highscore.
  set (row := highscores.mk
                (next_rowid (map highscores.id (highscores_table db)))
                (games.id tenant) (Py.strip (HighscoreIn.player_name hs))
                (HighscoreIn.score hs) now).
  destruct (order_by score_desc_created_asc (entries_of db tenant ++ [row]))
    as [|r s] eqn:Hs.
  - pose proof (order_by_length score_desc_created_asc
                  (entries_of db tenant ++ [row])) as Hlen.
    rewrite Hs, length_app in Hlen. simpl in Hlen. lia.
  - destruct (ranking_head _ _ _ Hs) as [Hr Hmax].
    assert (Hrow : r = row).
    { apply in_app_iff in Hr. destruct Hr as [Hr | [Hr | []]]; [|auto].
      specialize (Hbest r Hr).
      assert (Hin : In row (entries_of db tenant ++ [row]))
        by (apply in_or_app; right; left; reflexivity).
      specialize (Hmax row Hin). cbn [highscores.score row] in Hmax. lia. }
    subst r. destruct (Z.to_nat n) as [|k] eqn:Hk; [lia|].
    cbn [firstn map]. eexists. reflexivity.
Qed.

(** ** The admin routes, further *)

Lemma created_asc_total (a b : GameInfo.t) :
  created_asc a b = true \/ created_asc b a = true.
Proof. apply String.leb_total. Qed.

Lemma created_asc_trans (a b c : GameInfo.t) :
  created_asc a b = true -> created_asc b c = true -> created_asc a c = true.
Proof. apply string_leb_trans. Qed.

(** X15. With the admin token [list_games] returns one item for each
    stored tenant, holding its [public_id], [name] and [created_at], in
    ascending bytewise order of [created_at]. *)
Theorem list_games_sorted (db : DB) :
  exists l,
    list_games db (Some ADMIN_TOKEN) = Return l
    /\ Permutation l (map public_columns (games_table db))
    /\ StronglySorted created_not_after l
    /\ List.length l = List.length (games_table db).
Proof.
  exists (select_games db). split.
  - unfold list_games, require_admin_token, header_is.
    rewrite String.eqb_refl. reflexivity.
  - unfold select_games. split; [apply order_by_perm|]. split.
    + apply (order_by_sorted created_asc created_asc_total created_asc_trans).
    + rewrite order_by_length. apply length_map.
Qed.

(** ** Deletion, further *)

Lemma filter_split_perm {A : Type} (p : A -> bool) (l : list A) :
  Permutation (filter p l ++ filter (fun x => negb (p x)) l) l.
Proof.
  induction l as [|x l IH]; simpl; [constructor|].
  destruct (p x); simpl.
  - constructor. exact IH.
  - apply Permutation_sym, Permutation_cons_app, Permutation_sym, IH.
Qed.

Lemma remove_row_perm (l : list games.row) (t : games.row) :
  NoDup (map games.id l) -> In t l ->
  Permutation
    (t :: filter (fun g => negb (games.id g =? games.id t)) l) l.
Proof.
  induction l as [|x l IH]; simpl; [contradiction|].
  intros Hnd Hin. inversion Hnd as [|? ? Hx Hl]; subst.
  destruct Hin as [-> | Hin].
  - rewrite Z.eqb_refl. simpl. constructor.
    assert (Hf : filter (fun g => negb (games.id g =? games.id t)) l = l).
    { apply filter_none_neg with (p := fun g => games.id g =? games.id t).
      destruct (filter (fun g => games.id g =? games.id t) l)
        as [|y ys] eqn:E; [reflexivity|].
      assert (Hy : In y (filter (fun g => games.id g =? games.id t) l))
        by (rewrite E; left; reflexivity).
      apply filter_In in Hy. destruct Hy as [Hy Hid].
      apply Z.eqb_eq in Hid. exfalso. apply Hx. rewrite <- Hid.
      apply in_map. exact Hy. }
    rewrite Hf. reflexivity.
  - assert (Hne : games.id x <> games.id t).
    { intros Heq. apply Hx. rewrite Heq. apply in_map. exact Hin. }
    apply Z.eqb_neq in Hne. rewrite Hne. simpl.
    rewrite perm_swap. constructor. apply IH; assumption.
Qed.

(** X16. In a store the service reaches, a [delete_game] that goes
    through removes one tenant row, the one found under the [public_id],
    and that tenant's score entries, and nothing else: the rows left,
    together with the rows removed, are the rows there were. *)
Theorem delete_game_removes_exactly (db db' : DB) (public_id : string)
    (x_api_key x_admin_token : option string) :
  reachable db ->
  delete_game db public_id x_api_key x_admin_token = (Return tt, db') ->
  exists tenant,
    get_game_by_public_id db public_id = Some tenant
    /\ Permutation (tenant :: games_table db') (games_table db)
    /\ Permutation (entries_of db tenant ++ highscores_table db')
         (highscores_table db)
    /\ (List.length (games_table db') + 1 = List.length (games_table db))%nat.
Proof.
  intros Hreach. pose proof (reachable_inv db Hreach) as Hinv.
  unfold delete_game.
  destruct (verify_game_ownership_or_admin db public_id x_api_key
              x_admin_token) as [tenant|e] eqn:Hv; [|discriminate].
  apply verify_return in Hv. destruct (get_game_some _ _ _ Hv) as [HT _].
  intros Hd.
  assert (Hdb : db' = delete_from_games
                        (snd (delete_from_highscores db (games.id tenant)))
                        (games.id tenant)) by congruence.
  exists tenant. split; [exact Hv|]. rewrite Hdb.
  cbn [delete_from_games delete_from_highscores snd games_table
         highscores_table].
  pose proof (remove_row_perm (games_table db) tenant (inv_ids db Hinv) HT)
    as Hp.
  split; [exact Hp|]. split; [apply filter_split_perm|].
  apply Permutation_length in Hp. simpl in Hp. lia.
Qed.

(** X17. A [delete_highscores] that goes through accounts for every
    row: the entries left, together with the tenant's entries it removed,
    are the entries there were, and the number it returns plus the number
    of entries left is the number there was. *)
Theorem delete_highscores_balance (db db' : DB) (public_id : string)
    (x_api_key x_admin_token : option string) (deleted : Z) :
  delete_highscores db public_id x_api_key x_admin_token
  = (Return deleted, db') ->
  0 <= deleted
  /\ deleted + Z.of_nat (List.length (highscores_table db'))
     = Z.of_nat (List.length (highscores_table db))
  /\ exists tenant,
       get_game_by_public_id db public_id = Some tenant
       /\ Permutation (entries_of db tenant ++ highscores_table db')
            (highscores_table db).
Proof.
  unfold delete_highscores.
  destruct (verify_game_ownership_or_admin db public_id x_api_key
              x_admin_token) as [tenant|e] eqn:Hv; [|discriminate].
  apply verify_return in Hv. simpl. intros [= <- <-]. simpl.
  pose proof (filter_split_perm (owned_by (games.id tenant))
                (highscores_table db)) as Hp.
  split; [lia|]. split.
  - apply Permutation_length in Hp. rewrite length_app in Hp. lia.
  - exists tenant. split; [exact Hv | exact Hp].
Qed.

(** X18. Deleting a tenant revokes its key: in a store the service
    reaches, after a [delete_game] that goes through, the [api_key] of the
    deleted tenant opens no owner-or-admin route; without the admin token
    the guard answers NotFound or Forbidden for every [public_id]. *)
Theorem deleted_key_opens_nothing (db db' : DB) (public_id : string)
    (x_api_key x_admin_token : option string) (tenant : games.row)
    (public_id' : string) (x_admin_token' : option string) :
  reachable db ->
  get_game_by_public_id db public_id = Some tenant ->
  delete_game db public_id x_api_key x_admin_token = (Return tt, db') ->
  x_admin_token' <> Some ADMIN_TOKEN ->
  verify_game_ownership_or_admin db' public_id'
    (Some (games.api_key tenant)) x_admin_token' = Raise NotFound
  \/ verify_game_ownership_or_admin db' public_id'
       (Some (games.api_key tenant)) x_admin_token' = Raise Forbidden.
Proof.
  intros Hreach Hg Hd Htok. pose proof (reachable_inv db Hreach) as Hinv.
  destruct (get_game_some _ _ _ Hg) as [HT _].
  unfold delete_game in Hd.
  destruct (verify_game_ownership_or_admin db public_id x_api_key
              x_admin_token) as [t|e] eqn:Hv; [|discriminate].
  apply verify_return in Hv. rewrite Hg in Hv. injection Hv as <-.
  assert (Hdb : db' = delete_from_games
                        (snd (delete_from_highscores db (games.id tenant)))
                        (games.id tenant)) by congruence.
  clear Hd. unfold verify_game_ownership_or_admin.
  destruct (get_game_by_public_id db' public_id') as [U|] eqn:HU;
    [|left; reflexivity].
  right. rewrite (header_is_false _ _ Htok).
  destruct (api_key_matches (Some (games.api_key tenant)) (games.api_key U))
    eqn:E; [|reflexivity].
  apply api_key_matches_iff in E. destruct E as [[= E] _].
  apply get_game_some in HU. destruct HU as [HU _]. rewrite Hdb in HU.
  cbn [delete_from_games games_table delete_from_highscores snd] in HU.
  apply filter_In in HU. destruct HU as [HU Hid].
  apply negb_true_iff, Z.eqb_neq in Hid. exfalso. apply Hid. f_equal.
  symmetry. apply (NoDup_map_eq games.api_key (games_table db)); auto.
  apply (inv_api_keys db Hinv).
Qed.

(** X19. After a [delete_highscores] that goes through, the tenant is
    still there and its ranking is empty: [get_highscores] returns no
    entry, it does not answer NotFound. *)
Theorem ranking_empty_after_delete_highscores (db db' : DB)
    (public_id : string) (x_api_key x_admin_token : option string)
    (deleted n : Z) :
  delete_highscores db public_id x_api_key x_admin_token
  = (Return deleted, db') ->
  1 <= n <= 50 ->
  get_highscores db' public_id (Some n)
  = Return (HighscoreList.mk public_id []).
Proof.
  unfold delete_highscores.
  destruct (verify_game_ownership_or_admin db public_id x_api_key
              x_admin_token) as [tenant|e] eqn:Hv; [|discriminate].
  apply verify_return in Hv. simpl. intros [= _ <-] Hn.
  assert (Hg : get_game_by_public_id
                 (mkDB (games_table db)
                    (filter (fun h => negb (owned_by (games.id tenant) h))
                       (highscores_table db))) public_id = Some tenant)
    by exact Hv.
  rewrite (get_highscores_known _ public_id tenant n Hg Hn).
  rewrite (select_top_in_range _ tenant n Hn).
  unfold entries_of. cbn [highscores_table]. rewrite filter_neg_none.
  cbn [order_by]. rewrite firstn_nil. reflexivity.
Qed.

(** X20. In a store the service reaches, a submission to one tenant
    leaves the rankings of the other tenants as they were. *)
Theorem submit_keeps_other_rankings (db : DB) (public_id public_id' : string)
    (hs : HighscoreIn.t) (now : string) (limit : option Z) :
  reachable db ->
  public_id' <> public_id ->
  get_highscores (snd (submit_highscore db public_id hs now)) public_id' limit
  = get_highscores db public_id' limit.
Proof.
  intros Hreach Hne. pose proof (reachable_inv db Hreach) as Hinv.
  unfold submit_highscore.
  destruct (negb (HighscoreIn.valid hs)); [reflexivity|].
  destruct (get_game_by_public_id db public_id) as [T|] eqn:HT;
    [|reflexivity].
  cbn [snd]. unfold get_highscores.
  destruct (limit_param limit) as [n|e]; [|reflexivity]. cbn [bind].
  change (get_game_by_public_id
            (insert_highscore db (games.id T)
               (Py.strip (HighscoreIn.player_name hs))
               (HighscoreIn.score hs) now) public_id')
    with (get_game_by_public_id db public_id').
  destruct (get_game_by_public_id db public_id') as [U|] eqn:HU;
    [|reflexivity].
  destruct (get_game_some _ _ _ HT) as [HTin HTp].
  destruct (get_game_some _ _ _ HU) as [HUin HUp].
  assert (Hid : games.id T <> games.id U).
  { intros Heq. apply Hne. rewrite <- HTp, <- HUp. f_equal. symmetry.
    apply (NoDup_map_eq games.id (games_table db)); auto.
    apply (inv_ids db Hinv). }
  unfold select_top, insert_highscore. cbn [highscores_table].
  rewrite filter_app. cbn [filter]. unfold owned_by at 2.
  cbn [highscores.game_id].
  replace (games.id T =? games.id U) with false
    by (symmetry; apply Z.eqb_neq; exact Hid).
  rewrite app_nil_r. reflexivity.
Qed.

End App.

(** ** The run, executed *)

Example demo_registered_run :
  run demo_token demo_EmailStr demo_registrations empty_db = demo_registered.
Proof. vm_compute. reflexivity. Qed.

Example demo_db_run :
  run demo_token demo_EmailStr demo_submissions demo_registered = demo_db.
Proof. vm_compute. reflexivity. Qed.

Lemma demo_registered_reachable :
  reachable demo_token demo_EmailStr demo_registered.
Proof. exists demo_registrations. symmetry. exact demo_registered_run. Qed.

Lemma demo_db_reachable : reachable demo_token demo_EmailStr demo_db.
Proof.
  rewrite <- demo_db_run. apply reachable_run, demo_registered_reachable.
Qed.

Example demo_top_2 :
  get_highscores demo_db "g_0123456789abcdef" (Some 2)
  = Return (HighscoreList.mk "g_0123456789abcdef"
              [HighscoreOut.mk "B" 90 "2025-11-16T11:00:01";
               HighscoreOut.mk "C" 90 "2025-11-16T11:00:01.000250"]).
Proof. vm_compute. reflexivity. Qed.

Example demo_strip : Py.strip (String (ascii_of_nat 9) "  Zed  ") = "Zed".
Proof. vm_compute. reflexivity. Qed.

(** ** The theorems at the run above *)

Lemma guard_case_analysis_witness :
  reachable demo_token demo_EmailStr demo_db
  /\ verify_game_ownership_or_admin demo_token demo_db "g_0123456789abcdef"
       (Some "sk_tokenA") None = Return demo_asteroids
  /\ verify_game_ownership_or_admin demo_token demo_db "g_fedcba9876543210"
       (Some "sk_tokenA") None = Raise Forbidden.
Proof.
  split; [exact demo_db_reachable|].
  destruct (guard_case_analysis demo_token demo_EmailStr demo_db
              "g_0123456789abcdef" (Some "sk_tokenA") None
              demo_db_reachable) as (_ & _ & _ & _ & H).
  apply (H demo_asteroids demo_breakout).
  - simpl. auto.
  - simpl. auto.
  - discriminate.
  - discriminate.
Defined.

Lemma top_n_ranked_witness :
  get_game_by_public_id demo_registered "g_0123456789abcdef"
  = Some demo_asteroids
  /\ entries_of demo_registered demo_asteroids = []
  /\ String.ltb "2025-11-16T11:00:01" "2025-11-16T11:00:01.000250" = true
  /\ get_highscores
       (run demo_token demo_EmailStr
          [POST_highscores "g_0123456789abcdef" (HighscoreIn.mk "A" 50)
             "2025-11-16T11:00:00";
           POST_highscores "g_0123456789abcdef" (HighscoreIn.mk "B" 90)
             "2025-11-16T11:00:01";
           POST_highscores "g_0123456789abcdef" (HighscoreIn.mk "C" 90)
             "2025-11-16T11:00:01.000250"] demo_registered)
       "g_0123456789abcdef" (Some 2)
     = Return (HighscoreList.mk "g_0123456789abcdef"
                 [HighscoreOut.mk "B" 90 "2025-11-16T11:00:01";
                  HighscoreOut.mk "C" 90 "2025-11-16T11:00:01.000250"]).
Proof.
  assert (Hg : get_game_by_public_id demo_registered "g_0123456789abcdef"
               = Some demo_asteroids) by (vm_compute; reflexivity).
  assert (He : entries_of demo_registered demo_asteroids = [])
    by (vm_compute; reflexivity).
  assert (Hlt : String.ltb "2025-11-16T11:00:01" "2025-11-16T11:00:01.000250"
                = true) by (vm_compute; reflexivity).
  split; [exact Hg|]. split; [exact He|]. split; [exact Hlt|].
  exact (proj2 (top_n_ranked demo_token demo_EmailStr demo_registered
                  "g_0123456789abcdef" demo_asteroids Hg)
           "2025-11-16T11:00:00" "2025-11-16T11:00:01"
           "2025-11-16T11:00:01.000250" He Hlt).
Defined.

Lemma limit_out_of_range_rejected_witness :
  (51 < 1 \/ 50 < 51)
  /\ get_highscores demo_db "g_0123456789abcdef" (Some 51)
     = Raise RequestValidationError.
Proof.
  assert (H : 51 < 1 \/ 50 < 51) by (right; lia).
  split; [exact H|].
  exact (proj1 (limit_out_of_range_rejected demo_db "g_0123456789abcdef")
           51 H).
Defined.

Lemma api_key_only_in_create_response_witness :
  has_member "api_key"
    (fst (handle demo_token demo_EmailStr demo_db (GET_games (Some demo_token))))
  = false
  /\ has_member "api_key"
       (fst (handle demo_token demo_EmailStr demo_db
               (GET_game "g_0123456789abcdef" (Some demo_token))))
     = false.
Proof.
  pose proof (proj1 (api_key_only_in_create_response demo_token demo_EmailStr
                       demo_db)) as H.
  split; apply H; discriminate.
Defined.

Lemma delete_game_cascade_witness :
  reachable demo_token demo_EmailStr demo_db
  /\ delete_game demo_token demo_db "g_0123456789abcdef"
       (Some "sk_tokenA") None
     = (Return tt,
        mkDB [demo_breakout]
          [highscores.mk 4 2 "D" 70 "2025-11-16T11:00:02"])
  /\ get_highscores
       (mkDB [demo_breakout] [highscores.mk 4 2 "D" 70 "2025-11-16T11:00:02"])
       "g_0123456789abcdef" (Some 10)
     = Raise NotFound.
Proof.
  assert (Hd : delete_game demo_token demo_db "g_0123456789abcdef"
                 (Some "sk_tokenA") None
               = (Return tt,
                  mkDB [demo_breakout]
                    [highscores.mk 4 2 "D" 70 "2025-11-16T11:00:02"]))
    by (vm_compute; reflexivity).
  split; [exact demo_db_reachable|]. split; [exact Hd|].
  destruct (delete_game_cascade demo_token demo_EmailStr demo_db _
              "g_0123456789abcdef" (Some "sk_tokenA") None
              demo_db_reachable Hd) as (t & _ & _ & _ & _ & _ & _ & H & _).
  apply H. lia.
Defined.

Lemma delete_highscores_idempotent_witness :
  delete_highscores demo_token demo_db "g_0123456789abcdef"
    (Some "sk_tokenA") None
  = (Return 3,
     mkDB [demo_asteroids; demo_breakout]
       [highscores.mk 4 2 "D" 70 "2025-11-16T11:00:02"])
  /\ delete_highscores demo_token
       (mkDB [demo_asteroids; demo_breakout]
          [highscores.mk 4 2 "D" 70 "2025-11-16T11:00:02"])
       "g_0123456789abcdef" (Some "sk_tokenA") None
     = (Return 0,
        mkDB [demo_asteroids; demo_breakout]
          [highscores.mk 4 2 "D" 70 "2025-11-16T11:00:02"]).
Proof.
  assert (Hd : delete_highscores demo_token demo_db "g_0123456789abcdef"
                 (Some "sk_tokenA") None
               = (Return 3,
                  mkDB [demo_asteroids; demo_breakout]
                    [highscores.mk 4 2 "D" 70 "2025-11-16T11:00:02"]))
    by (vm_compute; reflexivity).
  split; [exact Hd|].
  destruct (delete_highscores_idempotent demo_token demo_db _
              "g_0123456789abcdef" (Some "sk_tokenA") None 3 Hd)
    as (t & _ & _ & _ & _ & _ & _ & _ & H).
  exact H.
Defined.

Lemma deletes_touch_one_tenant_witness :
  reachable demo_token demo_EmailStr demo_db
  /\ get_game_by_public_id demo_db "g_0123456789abcdef" = Some demo_asteroids
  /\ entries_of
       (snd (delete_game demo_token demo_db "g_0123456789abcdef"
               (Some "sk_tokenA") None)) demo_breakout
     = entries_of demo_db demo_breakout.
Proof.
  assert (Hg : get_game_by_public_id demo_db "g_0123456789abcdef"
               = Some demo_asteroids) by (vm_compute; reflexivity).
  split; [exact demo_db_reachable|]. split; [exact Hg|].
  destruct (deletes_touch_one_tenant demo_token demo_EmailStr demo_db
              "g_0123456789abcdef" (Some "sk_tokenA") None demo_asteroids
              demo_db_reachable Hg) as (_ & _ & H).
  apply (H demo_breakout).
  - simpl. auto.
  - discriminate.
Defined.

(** C8 as the claim has it fails: on the empty store, where the
    [public_id] is unknown, a payload with an empty [player_name] is
    answered with a validation error, not NotFound. *)
Lemma submit_unknown_tenant_invalid_payload :
  get_game_by_public_id empty_db "g_0123456789abcdef" = None
  /\ fst (submit_highscore empty_db "g_0123456789abcdef"
            (HighscoreIn.mk "" 10) "2025-11-16T12:00:00")
     = Raise RequestValidationError
  /\ fst (submit_highscore empty_db "g_0123456789abcdef"
            (HighscoreIn.mk "" 10) "2025-11-16T12:00:00")
     <> Raise NotFound.
Proof.
  split; [reflexivity|]. split; [reflexivity|]. discriminate.
Qed.

Lemma submit_unknown_tenant_witness :
  get_game_by_public_id demo_db "g_0000000000000000" = None
  /\ HighscoreIn.valid (HighscoreIn.mk " Zed " 10) = true
  /\ fst (submit_highscore demo_db "g_0000000000000000"
            (HighscoreIn.mk " Zed " 10) "2025-11-16T12:00:00")
     = Raise NotFound.
Proof.
  assert (Hg : get_game_by_public_id demo_db "g_0000000000000000" = None)
    by (vm_compute; reflexivity).
  assert (Hv : HighscoreIn.valid (HighscoreIn.mk " Zed " 10) = true)
    by (vm_compute; reflexivity).
  split; [exact Hg|]. split; [exact Hv|].
  exact (proj1 (proj2 (submit_unknown_tenant demo_db "g_0000000000000000"
                         (HighscoreIn.mk " Zed " 10) "2025-11-16T12:00:00"
                         Hg)) Hv).
Defined.

Lemma trimmed_name_round_trip_witness :
  reachable demo_token demo_EmailStr demo_db
  /\ get_game_by_public_id demo_db "g_fedcba9876543210" = Some demo_breakout
  /\ HighscoreIn.valid (HighscoreIn.mk "  Zed " 10) = true
  /\ fst (submit_highscore demo_db "g_fedcba9876543210"
            (HighscoreIn.mk "  Zed " 10) "2025-11-16T12:00:00")
     = Return (HighscoreOut.mk "Zed" 10 "2025-11-16T12:00:00")
  /\ exists l,
       get_highscores
         (snd (submit_highscore demo_db "g_fedcba9876543210"
                 (HighscoreIn.mk "  Zed " 10) "2025-11-16T12:00:00"))
         "g_fedcba9876543210" (Some 10)
       = Return l
       /\ In (HighscoreOut.mk "Zed" 10 "2025-11-16T12:00:00")
            (HighscoreList.highscores l).
Proof.
  assert (Hg : get_game_by_public_id demo_db "g_fedcba9876543210"
               = Some demo_breakout) by (vm_compute; reflexivity).
  assert (Hv : HighscoreIn.valid (HighscoreIn.mk "  Zed " 10) = true)
    by (vm_compute; reflexivity).
  assert (Hn : 1 <= 10 <= 50) by lia.
  split; [exact demo_db_reachable|]. split; [exact Hg|]. split; [exact Hv|].
  destruct (trimmed_name_round_trip demo_token demo_EmailStr demo_db
              "g_fedcba9876543210" demo_breakout
              (HighscoreIn.mk "  Zed " 10) "2025-11-16T12:00:00"
              demo_db_reachable Hg Hv) as (Hout & _ & _ & _ & _ & Htop & _).
  split; [exact Hout|].
  destruct (Htop 10 Hn) as (l & Hl & Hcover & _).
  exists l. split; [exact Hl|]. apply Hcover. vm_compute. lia.
Defined.

Lemma admin_check_precedes_lookup_witness :
  Some "guess" <> Some demo_token
  /\ get_game_by_public_id demo_db "g_0000000000000000" = None
  /\ get_game demo_token demo_db "g_0000000000000000" (Some "guess")
     = Raise Unauthorized
  /\ delete_game demo_token demo_db "g_0000000000000000" None (Some "guess")
     = (Raise NotFound, demo_db).
Proof.
  assert (Ht : Some "guess" <> Some demo_token) by discriminate.
  assert (Hg : get_game_by_public_id demo_db "g_0000000000000000" = None)
    by (vm_compute; reflexivity).
  split; [exact Ht|]. split; [exact Hg|].
  destruct (admin_check_precedes_lookup demo_token demo_db
              "g_0000000000000000" None (Some "guess") Ht) as (_ & H1 & H2).
  split; [exact H1|]. exact (proj2 (proj2 (H2 Hg))).
Defined.

(** ** The further properties at the run above *)

Example demo_pong_created :
  create_game demo_EmailStr demo_db demo_pong_body
    "00112233445566778899aabbccddeeff" "tokenC" "2025-11-16T12:00:00"
  = (Return demo_pong_out, demo_with_pong).
Proof. vm_compute. reflexivity. Qed.

Example demo_scores_deleted_by_owner :
  delete_highscores demo_token demo_db "g_0123456789abcdef"
    (Some "sk_tokenA") None
  = (Return 3, demo_scores_deleted).
Proof. vm_compute. reflexivity. Qed.

Example demo_game_deleted_by_owner :
  delete_game demo_token demo_db "g_0123456789abcdef" (Some "sk_tokenA") None
  = (Return tt, demo_game_deleted).
Proof. vm_compute. reflexivity. Qed.

Example demo_lookup_asteroids :
  get_game_by_public_id demo_db "g_0123456789abcdef" = Some demo_asteroids.
Proof. vm_compute. reflexivity. Qed.

Lemma demo_db_no_orphans : no_orphans demo_db.
Proof.
  intros h Hh. simpl in Hh.
  destruct Hh as [<- | [<- | [<- | [<- | []]]]];
    [exists demo_asteroids | exists demo_asteroids | exists demo_asteroids
     | exists demo_breakout]; simpl; auto.
Qed.

Lemma requests_keep_entries_owned_witness :
  no_orphans demo_db
  /\ no_orphans
       (snd (handle demo_token demo_EmailStr demo_db
               (DELETE_game "g_0123456789abcdef" (Some "sk_tokenA") None)))
  /\ reachable demo_token demo_EmailStr demo_db
  /\ NoDup (map highscores.id (highscores_table demo_db)).
Proof.
  destruct (requests_keep_entries_owned demo_token demo_EmailStr demo_db)
    as [Hown Hids].
  split; [exact demo_db_no_orphans|].
  split; [apply (proj1 (Hown demo_db_no_orphans))|].
  split; [exact demo_db_reachable|].
  exact (proj2 (Hids demo_db_reachable)).
Defined.

Lemma stored_rows_within_contract_witness :
  reachable demo_token demo_EmailStr demo_db /\ game_row_ok demo_asteroids.
Proof.
  split; [exact demo_db_reachable|].
  apply (proj1 (stored_rows_within_contract demo_token demo_EmailStr demo_db
                  demo_db_reachable)).
  simpl. auto.
Defined.

Lemma lookup_sound_complete_witness :
  reachable demo_token demo_EmailStr demo_db
  /\ get_game_by_public_id demo_db "g_fedcba9876543210" = Some demo_breakout.
Proof.
  split; [exact demo_db_reachable|].
  apply (proj1 (lookup_sound_complete demo_token demo_EmailStr demo_db
                  "g_fedcba9876543210" demo_db_reachable) demo_breakout).
  split; [simpl; auto | reflexivity].
Defined.

Lemma create_game_round_trip_witness :
  create_game demo_EmailStr demo_db demo_pong_body
    "00112233445566778899aabbccddeeff" "tokenC" "2025-11-16T12:00:00"
  = (Return demo_pong_out, demo_with_pong)
  /\ get_game demo_token demo_with_pong "g_0011223344556677"
       (Some demo_token)
     = Return (GameInfo.mk "g_0011223344556677" "Pong" "2025-11-16T12:00:00").
Proof.
  split; [exact demo_pong_created|].
  destruct (create_game_round_trip demo_token demo_EmailStr demo_db
              demo_with_pong demo_pong_body
              "00112233445566778899aabbccddeeff" "tokenC"
              "2025-11-16T12:00:00" demo_pong_out None demo_pong_created)
    as (row & _ & _ & _ & _ & _ & _ & _ & H & _).
  exact H.
Defined.

Lemma create_game_collision_witness :
  validate_GameCreate demo_EmailStr demo_pong_body
  = Some (GameCreate.mk "Pong  " "Cy@Example.org")
  /\ create_game demo_EmailStr demo_db demo_pong_body
       "0123456789abcdef0000000000000000" "tokenC" "2025-11-16T12:00:00"
     = (Raise IntegrityError, demo_db).
Proof.
  assert (Hv : validate_GameCreate demo_EmailStr demo_pong_body
               = Some (GameCreate.mk "Pong  " "Cy@Example.org"))
    by (vm_compute; reflexivity).
  split; [exact Hv|].
  apply (proj1 (proj2 (create_game_collision demo_EmailStr demo_db
                         demo_pong_body _
                         "0123456789abcdef0000000000000000" "tokenC"
                         "2025-11-16T12:00:00" Hv))).
  exists demo_asteroids. split; [simpl; auto | left; reflexivity].
Defined.

Lemma create_game_keeps_others_witness :
  create_game demo_EmailStr demo_db demo_pong_body
    "00112233445566778899aabbccddeeff" "tokenC" "2025-11-16T12:00:00"
  = (Return demo_pong_out, demo_with_pong)
  /\ get_game_by_public_id demo_db "g_0123456789abcdef" = Some demo_asteroids
  /\ get_game_by_public_id demo_with_pong "g_0123456789abcdef"
     = Some demo_asteroids.
Proof.
  split; [exact demo_pong_created|]. split; [exact demo_lookup_asteroids|].
  destruct (create_game_keeps_others demo_EmailStr demo_db demo_with_pong
              demo_pong_body "00112233445566778899aabbccddeeff" "tokenC"
              "2025-11-16T12:00:00" demo_pong_out demo_pong_created)
    as (_ & _ & H).
  exact (proj1 (H "g_0123456789abcdef" demo_asteroids demo_lookup_asteroids)).
Defined.

Lemma create_game_validation_witness :
  Py.len "" < 1
  /\ fst (create_game demo_EmailStr demo_db (GameCreate.mk "" "cy@example.org")
            "00112233445566778899aabbccddeeff" "tokenC" "2025-11-16T12:00:00")
     = Raise RequestValidationError.
Proof.
  assert (H : Py.len "" < 1) by (vm_compute; reflexivity).
  split; [exact H|].
  apply (proj1 (create_game_validation demo_EmailStr demo_db
                  (GameCreate.mk "" "cy@example.org")
                  "00112233445566778899aabbccddeeff" "tokenC"
                  "2025-11-16T12:00:00")).
  left. exact H.
Defined.

Example demo_pong_created_over_orphan :
  create_game demo_EmailStr demo_orphaned demo_pong_body
    "00112233445566778899aabbccddeeff" "tokenC" "2025-11-16T12:00:00"
  = (Return demo_pong_out, demo_orphaned_with_pong).
Proof. vm_compute. reflexivity. Qed.

Lemma new_game_ranking_witness :
  (create_game demo_EmailStr demo_db demo_pong_body
     "00112233445566778899aabbccddeeff" "tokenC" "2025-11-16T12:00:00"
   = (Return demo_pong_out, demo_with_pong)
   /\ no_orphans demo_db
   /\ get_highscores demo_with_pong "g_0011223344556677" (Some 10)
      = Return (HighscoreList.mk "g_0011223344556677" []))
  /\ (create_game demo_EmailStr demo_orphaned demo_pong_body
        "00112233445566778899aabbccddeeff" "tokenC" "2025-11-16T12:00:00"
      = (Return demo_pong_out, demo_orphaned_with_pong)
      /\ entries_under_next_id demo_orphaned <> []
      /\ exists o rest,
           get_highscores demo_orphaned_with_pong "g_0011223344556677"
             (Some 10)
           = Return (HighscoreList.mk "g_0011223344556677" (o :: rest))).
Proof.
  assert (Hn : 1 <= 10 <= 50) by lia.
  assert (Hstale : entries_under_next_id demo_orphaned <> [])
    by (vm_compute; discriminate).
  split.
  - split; [exact demo_pong_created|]. split; [exact demo_db_no_orphans|].
    exact (proj1 (proj2 (new_game_ranking demo_EmailStr demo_db
                           demo_with_pong demo_pong_body
                           "00112233445566778899aabbccddeeff" "tokenC"
                           "2025-11-16T12:00:00" demo_pong_out 10
                           demo_pong_created Hn))
             demo_db_no_orphans).
  - split; [exact demo_pong_created_over_orphan|]. split; [exact Hstale|].
    exact (proj2 (proj2 (new_game_ranking demo_EmailStr demo_orphaned
                           demo_orphaned_with_pong demo_pong_body
                           "00112233445566778899aabbccddeeff" "tokenC"
                           "2025-11-16T12:00:00" demo_pong_out 10
                           demo_pong_created_over_orphan Hn))
             Hstale).
Defined.

Lemma submit_never_overwrites_witness :
  get_game_by_public_id demo_db "g_0123456789abcdef" = Some demo_asteroids
  /\ HighscoreIn.valid (HighscoreIn.mk "A" 50) = true
  /\ entries_of
       (snd (submit_highscore demo_db "g_0123456789abcdef"
               (HighscoreIn.mk "A" 50) "2025-11-16T12:00:00"))
       demo_breakout
     = entries_of demo_db demo_breakout.
Proof.
  assert (Hv : HighscoreIn.valid (HighscoreIn.mk "A" 50) = true)
    by (vm_compute; reflexivity).
  split; [exact demo_lookup_asteroids|]. split; [exact Hv|].
  destruct (submit_never_overwrites demo_db "g_0123456789abcdef"
              demo_asteroids (HighscoreIn.mk "A" 50) "2025-11-16T12:00:00"
              "2025-11-16T12:00:01" demo_lookup_asteroids Hv) as (_ & H).
  apply (H demo_breakout). discriminate.
Defined.

Lemma whitespace_name_stored_empty_witness :
  get_game_by_public_id demo_db "g_0123456789abcdef" = Some demo_asteroids
  /\ only_whitespace "   " = true
  /\ fst (submit_highscore demo_db "g_0123456789abcdef"
            (HighscoreIn.mk "   " 7) "2025-11-16T12:00:00")
     = Return (HighscoreOut.mk "" 7 "2025-11-16T12:00:00").
Proof.
  assert (Hw : only_whitespace "   " = true) by (vm_compute; reflexivity).
  split; [exact demo_lookup_asteroids|]. split; [exact Hw|].
  rewrite (whitespace_name_stored_empty demo_db "g_0123456789abcdef"
             demo_asteroids (HighscoreIn.mk "   " 7) "2025-11-16T12:00:00"
             demo_lookup_asteroids Hw).
  - reflexivity.
  - vm_compute. split; discriminate.
  - simpl. lia.
Defined.

Lemma failed_requests_change_nothing_witness :
  fst (delete_game demo_token demo_db "g_fedcba9876543210"
         (Some "sk_tokenA") None) = Raise Forbidden
  /\ snd (delete_game demo_token demo_db "g_fedcba9876543210"
            (Some "sk_tokenA") None) = demo_db.
Proof.
  assert (H : fst (delete_game demo_token demo_db "g_fedcba9876543210"
                     (Some "sk_tokenA") None) = Raise Forbidden)
    by (vm_compute; reflexivity).
  split; [exact H|].
  exact (proj2 (proj2 (proj2 (failed_requests_change_nothing demo_token
                                demo_EmailStr demo_db Forbidden)))
           "g_fedcba9876543210" (Some "sk_tokenA") None H).
Defined.

Lemma top_n_prefix_witness :
  get_game_by_public_id demo_db "g_0123456789abcdef" = Some demo_asteroids
  /\ exists ln lm,
       get_highscores demo_db "g_0123456789abcdef" (Some 2) = Return ln
       /\ get_highscores demo_db "g_0123456789abcdef" (Some 3) = Return lm
       /\ HighscoreList.highscores ln
          = firstn (Z.to_nat 2) (HighscoreList.highscores lm).
Proof.
  split; [exact demo_lookup_asteroids|].
  apply (top_n_prefix demo_db "g_0123456789abcdef" demo_asteroids 2 3
           demo_lookup_asteroids); lia.
Defined.

Lemma top_score_first_witness :
  get_game_by_public_id demo_db "g_0123456789abcdef" = Some demo_asteroids
  /\ get_highscores demo_db "g_0123456789abcdef" (Some 2)
     = Return (HighscoreList.mk "g_0123456789abcdef"
                 [HighscoreOut.mk "B" 90 "2025-11-16T11:00:01";
                  HighscoreOut.mk "C" 90 "2025-11-16T11:00:01.000250"])
  /\ forall h, In h (entries_of demo_db demo_asteroids) ->
               highscores.score h <= 90.
Proof.
  assert (Hn : 1 <= 2 <= 50) by lia.
  split; [exact demo_lookup_asteroids|]. split; [exact demo_top_2|].
  destruct (top_score_first demo_db "g_0123456789abcdef" demo_asteroids 2 _
              demo_lookup_asteroids Hn demo_top_2)
    as (_ & _ & H).
  exact (H _ _ eq_refl).
Defined.

Lemma new_best_score_ranked_first_witness :
  get_game_by_public_id demo_db "g_0123456789abcdef" = Some demo_asteroids
  /\ HighscoreIn.valid (HighscoreIn.mk " E" 95) = true
  /\ exists rest,
       get_highscores
         (snd (submit_highscore demo_db "g_0123456789abcdef"
                 (HighscoreIn.mk " E" 95) "2025-11-16T12:00:00"))
         "g_0123456789abcdef" (Some 2)
       = Return (HighscoreList.mk "g_0123456789abcdef"
                   (HighscoreOut.mk "E" 95 "2025-11-16T12:00:00" :: rest)).
Proof.
  assert (Hv : HighscoreIn.valid (HighscoreIn.mk " E" 95) = true)
    by (vm_compute; reflexivity).
  split; [exact demo_lookup_asteroids|]. split; [exact Hv|].
  apply (new_best_score_ranked_first demo_db "g_0123456789abcdef"
           demo_asteroids (HighscoreIn.mk " E" 95) "2025-11-16T12:00:00" 2
           demo_lookup_asteroids Hv).
  - intros h Hh. vm_compute in Hh.
    destruct Hh as [<- | [<- | [<- | []]]]; simpl; lia.
  - lia.
Defined.

Lemma delete_game_removes_exactly_witness :
  reachable demo_token demo_EmailStr demo_db
  /\ delete_game demo_token demo_db "g_0123456789abcdef"
       (Some "sk_tokenA") None
     = (Return tt, demo_game_deleted)
  /\ (List.length (games_table demo_game_deleted) + 1
      = List.length (games_table demo_db))%nat.
Proof.
  split; [exact demo_db_reachable|].
  split; [exact demo_game_deleted_by_owner|].
  destruct (delete_game_removes_exactly demo_token demo_EmailStr demo_db
              demo_game_deleted "g_0123456789abcdef" (Some "sk_tokenA") None
              demo_db_reachable demo_game_deleted_by_owner)
    as (t & _ & _ & _ & H).
  exact H.
Defined.

Lemma delete_highscores_balance_witness :
  delete_highscores demo_token demo_db "g_0123456789abcdef"
    (Some "sk_tokenA") None
  = (Return 3, demo_scores_deleted)
  /\ 3 + Z.of_nat (List.length (highscores_table demo_scores_deleted))
     = Z.of_nat (List.length (highscores_table demo_db)).
Proof.
  split; [exact demo_scores_deleted_by_owner|].
  exact (proj1 (proj2 (delete_highscores_balance demo_token demo_db
                         demo_scores_deleted "g_0123456789abcdef"
                         (Some "sk_tokenA") None 3
                         demo_scores_deleted_by_owner))).
Defined.

Lemma deleted_key_opens_nothing_witness :
  reachable demo_token demo_EmailStr demo_db
  /\ get_game_by_public_id demo_db "g_0123456789abcdef" = Some demo_asteroids
  /\ delete_game demo_token demo_db "g_0123456789abcdef"
       (Some "sk_tokenA") None
     = (Return tt, demo_game_deleted)
  /\ (verify_game_ownership_or_admin demo_token demo_game_deleted
        "g_fedcba9876543210" (Some "sk_tokenA") None = Raise NotFound
      \/ verify_game_ownership_or_admin demo_token demo_game_deleted
           "g_fedcba9876543210" (Some "sk_tokenA") None = Raise Forbidden).
Proof.
  split; [exact demo_db_reachable|]. split; [exact demo_lookup_asteroids|].
  split; [exact demo_game_deleted_by_owner|].
  apply (deleted_key_opens_nothing demo_token demo_EmailStr demo_db
           demo_game_deleted "g_0123456789abcdef" (Some "sk_tokenA") None
           demo_asteroids "g_fedcba9876543210" None demo_db_reachable
           demo_lookup_asteroids demo_game_deleted_by_owner).
  discriminate.
Defined.

Lemma ranking_empty_after_delete_highscores_witness :
  delete_highscores demo_token demo_db "g_0123456789abcdef"
    (Some "sk_tokenA") None
  = (Return 3, demo_scores_deleted)
  /\ get_highscores demo_scores_deleted "g_0123456789abcdef" (Some 10)
     = Return (HighscoreList.mk "g_0123456789abcdef" []).
Proof.
  split; [exact demo_scores_deleted_by_owner|].
  apply (ranking_empty_after_delete_highscores demo_token demo_db
           demo_scores_deleted "g_0123456789abcdef" (Some "sk_tokenA") None
           3 10 demo_scores_deleted_by_owner).
  lia.
Defined.

Lemma submit_keeps_other_rankings_witness :
  reachable demo_token demo_EmailStr demo_db
  /\ "g_fedcba9876543210" <> "g_0123456789abcdef"
  /\ get_highscores
       (snd (submit_highscore demo_db "g_0123456789abcdef"
               (HighscoreIn.mk "E" 95) "2025-11-16T12:00:00"))
       "g_fedcba9876543210" (Some 5)
     = get_highscores demo_db "g_fedcba9876543210" (Some 5).
Proof.
  assert (Hne : "g_fedcba9876543210" <> "g_0123456789abcdef")
    by discriminate.
  split; [exact demo_db_reachable|]. split; [exact Hne|].
  exact (submit_keeps_other_rankings demo_token demo_EmailStr demo_db
           "g_0123456789abcdef" "g_fedcba9876543210" (HighscoreIn.mk "E" 95)
           "2025-11-16T12:00:00" (Some 5) demo_db_reachable Hne).
Defined.
